(** * Countdown timer of [flet_multi_countdown_timer.py]

    A shallow embedding of the class [CountdownTimer]: its fields, the
    display helpers [_format_time] and [_progress_fraction], the button
    handlers [start], [pause], [reset], the refresh [_sync_ui] and the body
    of the background coroutine [_run].

    Modelling choices.
    - [total_seconds] and [default_seconds] only ever hold Python ints: [Z].
    - [remaining] starts as an int and becomes a float once the loop has
      subtracted an elapsed time; it is modelled as an exact rational [Q]
      (rounding of float arithmetic is not modelled).  The same holds for
      the readings of [time.monotonic()] and for the progress fraction.
      Where the rounding of doubles decides a property, the subtraction of
      the loop is given a second time in IEEE 754 binary64
      ([turn_remaining]), and statements are restricted to durations of at
      most 2^53 seconds, which convert to doubles exactly.
    - The text of the duration field is a [string] of ASCII characters.
    - The page is represented by a counter of [page.update()] requests, the
      scheduler by a counter of [page.run_task] calls and a counter of the
      loop bodies that were executed.  These three counters are ghost
      fields: the Python object does not store them. *)

From Stdlib Require Import ZArith QArith Qround Lqa Lia Bool List.
From Stdlib Require Import Ascii String.
From Stdlib Require Import SpecFloat.
Import ListNotations.

Local Open Scope Z_scope.

(** ** Python primitives used by the class *)

Module Py.

(** [Py_ISSPACE]: tab, line feed, vertical tab, form feed, carriage return
    and space. *)
Definition is_space (c : ascii) : bool :=
  let n := nat_of_ascii c in
  ((9 <=? n)%nat && (n <=? 13)%nat) || (n =? 32)%nat.

Definition digit_val (c : ascii) : option Z :=
  let n := nat_of_ascii c in
  if ((48 <=? n)%nat && (n <=? 57)%nat) then Some (Z.of_nat (n - 48)) else None.

Definition is_underscore (c : ascii) : bool := (nat_of_ascii c =? 95)%nat.

Fixpoint skip_spaces (s : string) : string :=
  match s with
  | String c r => if is_space c then skip_spaces r else s
  | EmptyString => s
  end.

(** The digit scan of [int(str)] in base 10.  [acc] is the value read so
    far, [prev_us] tells that the previous character was an underscore and
    [seen] that at least one digit was read.  Underscores are allowed
    between digits only, one at a time.  The scan stops at the first
    character that is neither a digit nor an underscore and returns the
    value with the rest of the text. *)
Fixpoint scan_digits (s : string) (acc : Z) (prev_us seen : bool)
  : option (Z * string) :=
  match s with
  | EmptyString =>
      if prev_us || negb seen then None else Some (acc, s)
  | String c r =>
      match digit_val c with
      | Some d => scan_digits r (10 * acc + d) false true
      | None =>
          if is_underscore c then
            if prev_us || negb seen then None
            else scan_digits r acc true seen
          else if prev_us || negb seen then None else Some (acc, s)
      end
  end.

(** [int(s)] for a [str] argument: optional white space, an optional sign,
    the digits, optional white space, end of text.  [None] stands for the
    [ValueError] that Python raises.  Characters outside ASCII are not
    digits here, and the interpreter's limit on the number of digits is
    not modelled. *)
Definition int (s : string) : option Z :=
  let s1 := skip_spaces s in
  let '(neg, s2) :=
    match s1 with
    | String "-"%char r => (true, r)
    | String "+"%char r => (false, r)
    | _ => (false, s1)
    end in
  match scan_digits s2 0 false false with
  | Some (v, rest) =>
      match skip_spaces rest with
      | EmptyString => Some (if neg then - v else v)
      | _ => None
      end
  | None => None
  end.

(** The character of the digit [d]. *)
Definition digit_char (d : Z) : ascii := ascii_of_nat (48 + Z.to_nat d).

(** Decimal digits of a non-negative integer, most significant first.
    [fuel] bounds the number of digits. *)
Fixpoint digits_fuel (fuel : nat) (n : Z) (acc : string) : string :=
  match fuel with
  | O => acc
  | S f =>
      let acc' := String (digit_char (n mod 10)) acc in
      if n <? 10 then acc' else digits_fuel f (n / 10) acc'
  end.

Definition str_of_nonneg (n : Z) : string :=
  digits_fuel (S (Z.to_nat (Z.log2 n))) n EmptyString.

Fixpoint zeros (k : nat) : string :=
  match k with
  | O => EmptyString
  | S k' => String "0"%char (zeros k')
  end.

(** The format specification [:02d]: decimal, padded with zeros to a
    minimal width of two; the sign of a negative number counts in the
    width and comes before the padding. *)
Definition format_02d (n : Z) : string :=
  if n <? 0 then
    let d := str_of_nonneg (- n) in
    String "-"%char (zeros (1 - String.length d) ++ d)
  else
    let d := str_of_nonneg n in
    zeros (2 - String.length d) ++ d.

(** [str(n)] for an int. *)
Definition str (n : Z) : string :=
  if n <? 0 then String "-"%char (str_of_nonneg (- n)) else str_of_nonneg n.

(** [math.ceil] *)
Definition ceil (q : Q) : Z := Qceiling q.

(** Python comparisons on numbers, as booleans. *)
Definition le (a b : Q) : bool := Qle_bool a b.
Definition lt (a b : Q) : bool := negb (Qle_bool b a).
Definition eq (a b : Q) : bool := Qeq_bool a b.

(** The builtins [min(a, b)] and [max(a, b)]: the first argument wins a
    tie. *)
Definition min (a b : Q) : Q := if lt b a then b else a.
Definition max (a b : Q) : Q := if lt a b then b else a.

(** Results of operations that may raise. *)
Inductive exn := ZeroDivisionError.

Inductive result (A : Type) :=
| Ok (a : A)
| Raise (e : exn).
Arguments Ok {A} a.
Arguments Raise {A} e.

Definition bind {A B} (r : result A) (k : A -> result B) : result B :=
  match r with
  | Ok a => k a
  | Raise e => Raise e
  end.

(** True division [a / b]. *)
Definition truediv (a b : Q) : result Q :=
  if Qeq_bool b 0 then Raise ZeroDivisionError else Ok (a / b)%Q.

(** The value of a computation that is known not to raise. *)
Definition value (r : result Q) : Q :=
  match r with
  | Ok q => q
  | Raise _ => 0%Q
  end.

End Py.

(** ** The class [CountdownTimer] *)

(** The handle returned by [page.run_task(self._run)], together with the
    local variable [last_tick] of the coroutine it runs. *)
Record Task := mkTask {
  done : bool;
  last_tick : option Q
}.

Record CountdownTimer := mkTimer {
  name : string;
  default_seconds : Z;
  total_seconds : Z;
  remaining : Q;
  running : bool;
  _task : option Task;
  input_value : string;          (* input.value *)
  time_text : string;            (* time_text.value *)
  progress_ring : Q;             (* progress_ring.value *)
  progress_bar : Q;              (* progress_bar.value *)
  start_btn_disabled : bool;
  pause_btn_disabled : bool;
  reset_btn_disabled : bool;
  page_updates : nat;            (* ghost: calls of page.update() *)
  tasks_spawned : nat;           (* ghost: calls of page.run_task *)
  loop_steps : nat               (* ghost: executions of the loop body *)
}.

(** Assignments to single fields. *)
Definition set_total_seconds (v : Z) (t : CountdownTimer) : CountdownTimer :=
  mkTimer (name t) (default_seconds t) v (remaining t) (running t) (_task t)
    (input_value t) (time_text t) (progress_ring t) (progress_bar t)
    (start_btn_disabled t) (pause_btn_disabled t) (reset_btn_disabled t)
    (page_updates t) (tasks_spawned t) (loop_steps t).

Definition set_remaining (r : Q) (t : CountdownTimer) : CountdownTimer :=
  mkTimer (name t) (default_seconds t) (total_seconds t) r (running t) (_task t)
    (input_value t) (time_text t) (progress_ring t) (progress_bar t)
    (start_btn_disabled t) (pause_btn_disabled t) (reset_btn_disabled t)
    (page_updates t) (tasks_spawned t) (loop_steps t).

Definition set_running (b : bool) (t : CountdownTimer) : CountdownTimer :=
  mkTimer (name t) (default_seconds t) (total_seconds t) (remaining t) b (_task t)
    (input_value t) (time_text t) (progress_ring t) (progress_bar t)
    (start_btn_disabled t) (pause_btn_disabled t) (reset_btn_disabled t)
    (page_updates t) (tasks_spawned t) (loop_steps t).

Definition set_task (k : option Task) (t : CountdownTimer) : CountdownTimer :=
  mkTimer (name t) (default_seconds t) (total_seconds t) (remaining t)
    (running t) k
    (input_value t) (time_text t) (progress_ring t) (progress_bar t)
    (start_btn_disabled t) (pause_btn_disabled t) (reset_btn_disabled t)
    (page_updates t) (tasks_spawned t) (loop_steps t).

(** The user types [s] into the duration field. *)
Definition set_input_value (s : string) (t : CountdownTimer) : CountdownTimer :=
  mkTimer (name t) (default_seconds t) (total_seconds t) (remaining t)
    (running t) (_task t)
    s (time_text t) (progress_ring t) (progress_bar t)
    (start_btn_disabled t) (pause_btn_disabled t) (reset_btn_disabled t)
    (page_updates t) (tasks_spawned t) (loop_steps t).

(** [_format_time] *)
Definition _format_time (s : Z) : string :=
  let s := if s <? 0 then 0 else s in
  let m := s / 60 in
  let sec := s mod 60 in
  (Py.format_02d m ++ ":" ++ Py.format_02d sec)%string.

(** [_progress_fraction] *)
Definition _progress_fraction (t : CountdownTimer) : Py.result Q :=
  if total_seconds t <=? 0 then Py.Ok 0%Q
  else
    Py.bind
      (Py.truediv (inject_Z (total_seconds t) - remaining t)%Q
                  (inject_Z (total_seconds t)))
      (fun x => Py.Ok (Py.max 0 (Py.min 1 x))).

(** [_sync_ui].  A failure of [page.update()] is swallowed by the method, so
    the request is only counted.  [_progress_fraction] does not raise (see
    [progress_fraction_total] below). *)
Definition _sync_ui (t : CountdownTimer) : CountdownTimer :=
  let frac := Py.value (_progress_fraction t) in
  mkTimer (name t) (default_seconds t) (total_seconds t) (remaining t)
    (running t) (_task t) (input_value t)
    (_format_time (Py.ceil (remaining t)))
    frac
    frac
    (running t)
    (negb (running t))
    (Py.eq (remaining t) (inject_Z (total_seconds t)) && negb (running t))
    (S (page_updates t)) (tasks_spawned t) (loop_steps t).

(** [__init__].  The buttons are created enabled; the texts and indicators
    are computed from the fresh fields without a call of [_sync_ui]. *)
Definition __init__ (name : string) (default_seconds : Z) : CountdownTimer :=
  let t0 :=
    mkTimer name default_seconds default_seconds (inject_Z default_seconds)
      false None (Py.str default_seconds) EmptyString 0%Q 0%Q
      false false false 0 0 0 in
  let frac := Py.value (_progress_fraction t0) in
  mkTimer name default_seconds default_seconds (inject_Z default_seconds)
    false None (Py.str default_seconds) (_format_time default_seconds)
    frac frac false false false 0 0 0.

(** [page.run_task(self._run)]: a fresh task whose coroutine has not run
    yet, so its [last_tick] is [None]. *)
Definition run_task (t : CountdownTimer) : CountdownTimer :=
  mkTimer (name t) (default_seconds t) (total_seconds t) (remaining t)
    (running t) (Some (mkTask false None))
    (input_value t) (time_text t) (progress_ring t) (progress_bar t)
    (start_btn_disabled t) (pause_btn_disabled t) (reset_btn_disabled t)
    (page_updates t) (S (tasks_spawned t)) (loop_steps t).

(** [self._task is None or self._task.done()] *)
Definition no_live_task (t : CountdownTimer) : bool :=
  match _task t with
  | None => true
  | Some k => done k
  end.

(** How the [try] block of [start] is left: by its [return], or by falling
    through to the statements after it (also when [except] caught the
    error of [int]). *)
Inductive flow :=
| Returned (t : CountdownTimer)
| Next (t : CountdownTimer).

Definition start_parse (t : CountdownTimer) : flow :=
  match Py.int (input_value t) with
  | Some val =>
      if val <=? 0 then Returned t
      else if Py.le (remaining t) 0 || negb (val =? total_seconds t) then
        Next (_sync_ui (set_remaining (inject_Z val) (set_total_seconds val t)))
      else Next t
  | None => Next t
  end.

(** The statements of [start] after the [try] block. *)
Definition start_activate (t : CountdownTimer) : CountdownTimer :=
  if negb (running t) then
    let t1 := set_running true t in
    let t2 := if no_live_task t1 then run_task t1 else t1 in
    _sync_ui t2
  else t.

(** [start] *)
Definition start (t : CountdownTimer) : CountdownTimer :=
  match start_parse t with
  | Returned t' => t'
  | Next t' => start_activate t'
  end.

(** [pause] *)
Definition pause (t : CountdownTimer) : CountdownTimer :=
  if running t then _sync_ui (set_running false t) else t.

(** [reset] *)
Definition reset (t : CountdownTimer) : CountdownTimer :=
  _sync_ui (set_remaining (inject_Z (total_seconds t)) (set_running false t)).

(** ** The coroutine [_run] *)

Inductive loop_ctl := Continue | Break.

(** One turn of the [while True] loop, from the return of the first
    [asyncio.sleep] to the next one.  [now] is the reading of
    [time.monotonic()] in this turn; the result carries the new value of
    the local variable [last_tick].  No statement of the body raises in
    the exact arithmetic used here ([_sync_ui] swallows the failures of
    the page), so the [except] clause of [_run] is left out.  In the
    interpreter the subtraction works in doubles: it rounds, and it raises
    [OverflowError] on an int [remaining] of 2^1024 or more, which the
    [except] clause answers by setting [running] to false. *)
Definition run_body (now : Q) (last : option Q) (t : CountdownTimer)
  : CountdownTimer * option Q * loop_ctl :=
  if negb (running t) then (t, last, Continue)
  else
    let last1 := match last with None => now | Some l => l end in
    let elapsed := (now - last1)%Q in
    let t1 := set_remaining (remaining t - elapsed)%Q t in
    if Py.le (remaining t1) 0 then
      (_sync_ui (set_running false (set_remaining 0%Q t1)), Some now, Break)
    else
      (_sync_ui t1, Some now, Continue).

(** The loop of [_run] over the clock readings of its successive turns,
    with no handler running in between.  It returns the final timer and
    the readings that were not consumed. *)
Fixpoint _run (clock : list Q) (last : option Q) (t : CountdownTimer)
  : CountdownTimer * list Q :=
  match clock with
  | [] => (t, [])
  | now :: rest =>
      match run_body now last t with
      | (t', _, Break) => (t', rest)
      | (t', last', Continue) => _run rest last' t'
      end
  end.

Definition count_loop_step (t : CountdownTimer) : CountdownTimer :=
  mkTimer (name t) (default_seconds t) (total_seconds t) (remaining t)
    (running t) (_task t)
    (input_value t) (time_text t) (progress_ring t) (progress_bar t)
    (start_btn_disabled t) (pause_btn_disabled t) (reset_btn_disabled t)
    (page_updates t) (tasks_spawned t) (S (loop_steps t)).

(** The scheduler resumes the timer's task at clock reading [now]: a live
    task runs one turn of its loop, and is done when the loop is left; a
    finished task, or none, runs nothing. *)
Definition wake (now : Q) (t : CountdownTimer) : CountdownTimer :=
  match _task t with
  | Some k =>
      if done k then t
      else
        match run_body now (last_tick k) (count_loop_step t) with
        | (t', last', Break) => set_task (Some (mkTask true last')) t'
        | (t', last', Continue) => set_task (Some (mkTask false last')) t'
        end
  | None => t
  end.

(** ** Histories of one timer *)

(** What can happen to a timer between two suspension points: the user
    edits the duration field or presses a button, or its task is resumed. *)
Inductive action :=
| Type_input (s : string)
| Start
| Pause
| Reset
| Wake (now : Q).

Definition step (t : CountdownTimer) (a : action) : CountdownTimer :=
  match a with
  | Type_input s => set_input_value s t
  | Start => start t
  | Pause => pause t
  | Reset => reset t
  | Wake now => wake now t
  end.

Definition replay (t : CountdownTimer) (l : list action) : CountdownTimer :=
  fold_left step l t.




(** What [_sync_ui] leaves on the page: every display element agrees with
    the fields of the timer. *)
Definition displayed (t : CountdownTimer) : Prop :=
  time_text t = _format_time (Py.ceil (remaining t)) /\
  progress_ring t = Py.value (_progress_fraction t) /\
  progress_bar t = Py.value (_progress_fraction t) /\
  start_btn_disabled t = running t /\
  pause_btn_disabled t = negb (running t) /\
  reset_btn_disabled t =
    (Py.eq (remaining t) (inject_Z (total_seconds t)) && negb (running t)).

(** [after] was refreshed since [before]: at least one more page update was
    requested and the display agrees with the fields. *)
Definition refreshed (before after : CountdownTimer) : Prop :=
  (page_updates before < page_updates after)%nat /\ displayed after.

(** The clamp of the specification: values below 0 become 0, values above
    1 become 1. *)
Definition clamp01 (x : Q) : Q :=
  if Py.lt x 0 then 0%Q else if Py.lt 1 x then 1%Q else x.

(** [start] rewrites the duration: the field holds a positive whole number
    and either nothing is left or the number is not [total_seconds]. *)
Definition reconfigures (t : CountdownTimer) : bool :=
  match Py.int (input_value t) with
  | Some v => (0 <? v) && (Py.le (remaining t) 0 || negb (v =? total_seconds t))
  | None => false
  end.

(** [start] sets a paused timer running: the timer is not running and the
    field does not hold a whole number below 1. *)
Definition activates (t : CountdownTimer) : bool :=
  negb (running t) &&
  match Py.int (input_value t) with
  | Some v => 0 <? v
  | None => true
  end.

(** The number written by a text made of decimal digits only. *)
Fixpoint digits_value (s : string) (acc : Z) : option Z :=
  match s with
  | EmptyString => Some acc
  | String c r =>
      match Py.digit_val c with
      | Some d => digits_value r (10 * acc + d)
      | None => None
      end
  end.

Definition field_value (s : string) : option Z :=
  match s with
  | EmptyString => None
  | _ => digits_value s 0
  end.

Definition leading_nonzero (s : string) : Prop :=
  exists c r, s = String c r /\ c <> "0"%char.

(** The field of the specification: the decimal numeral of [v], padded with
    zeros to two digits.  Below 10 the field has two characters; from 10
    on it is the numeral itself, which starts with a digit other than 0. *)
Definition zero_padded2 (v : Z) (f : string) : Prop :=
  field_value f = Some v /\
  (2 <= String.length f)%nat /\
  (v < 100 -> String.length f = 2%nat) /\
  (10 <= v -> leading_nonzero f).

(** ** Some concrete timers *)

(** The first timer of the application, as [main] creates it. *)
Definition timer1 : CountdownTimer := __init__ "Timer 1" 60.

(** Started, and 20 seconds later: running with 40 of 60 seconds left. *)
Definition running_60_40 : CountdownTimer :=
  replay timer1 [Start; Wake 0; Wake 20].

(** Started and run to completion: not running, nothing left. *)
Definition finished_60 : CountdownTimer :=
  replay timer1 [Start; Wake 0; Wake 100].

(** A finished timer that was started again while the field held no
    number, after which the user typed the old duration. *)
Definition restarted_at_zero : CountdownTimer :=
  replay finished_60 [Type_input "abc"; Start; Type_input "60"].

(** ** Reading a time text back *)

(** The text before the first colon and the text after it. *)
Fixpoint split_colon (s : string) : option (string * string) :=
  match s with
  | EmptyString => None
  | String c r =>
      if Ascii.eqb c ":" then Some (EmptyString, r)
      else
        match split_colon r with
        | Some (a, b) => Some (String c a, b)
        | None => None
        end
  end.

(** The number of seconds written by a text of the form minutes, colon,
    seconds. *)
Definition parse_time (s : string) : option Z :=
  match split_colon s with
  | Some (m, sec) =>
      match field_value m, field_value sec with
      | Some a, Some b => Some (60 * a + b)
      | _, _ => None
      end
  | None => None
  end.

(** ** Runs of the loop and views of the display *)

(** The reading from which a turn measures its elapsed time: the previous
    reading, or the present one in the first turn of a task. *)
Definition baseline (last : option Q) (now : Q) : Q :=
  match last with
  | Some l => l
  | None => now
  end.

(** The time text and the two indicators show the present fields. *)
Definition readout_current (t : CountdownTimer) : Prop :=
  time_text t = _format_time (Py.ceil (remaining t)) /\
  progress_ring t = Py.value (_progress_fraction t) /\
  progress_bar t = Py.value (_progress_fraction t).

(** [t'] has the fields and the display elements of [t]. *)
Definition same_face (t t' : CountdownTimer) : Prop :=
  total_seconds t' = total_seconds t /\
  remaining t' = remaining t /\
  running t' = running t /\
  time_text t' = time_text t /\
  progress_ring t' = progress_ring t /\
  progress_bar t' = progress_bar t /\
  start_btn_disabled t' = start_btn_disabled t /\
  pause_btn_disabled t' = pause_btn_disabled t /\
  reset_btn_disabled t' = reset_btn_disabled t.

(** ** The application shell: [main], [show_timer], [add_timer] *)

(** The f-string [f"Timer {i+1}"]. *)
Definition timer_label (i : nat) : string :=
  ("Timer " ++ Py.str (Z.of_nat i + 1))%string.

(** The state that [main] builds and its two closures share.  A view is
    identified by the position of its timer in [timers]; timers are never
    removed or reordered.  [shell_updates] is a ghost count of the
    [page.update()] calls of [show_timer] and [add_timer]. *)
Record Shell := mkShell {
  timers : list CountdownTimer;
  nav_buttons : list (string * nat);  (* text, and the index bound by the lambda *)
  content : nat;                      (* content_container.content *)
  selected_index : nat;               (* selected_index['idx'] *)
  shell_updates : nat
}.

(** [main], up to the layout. *)
Definition main : Shell :=
  mkShell
    (map (fun i => __init__ (timer_label i) (60 * (Z.of_nat i + 1))) (seq 0 3))
    (map (fun i => (timer_label i, i)) (seq 0 3))
    0 0 0.

(** How a handler of the shell ends. *)
Inductive outcome := Done | IndexError.

(** [show_timer(i)].  The index is recorded before [timers[i]] is read, so
    it stays recorded when the read raises. *)
Definition show_timer (i : nat) (a : Shell) : Shell * outcome :=
  match nth_error (timers a) i with
  | Some _ =>
      (mkShell (timers a) (nav_buttons a) i i (S (shell_updates a)), Done)
  | None =>
      (mkShell (timers a) (nav_buttons a) (content a) i (shell_updates a),
       IndexError)
  end.

(** [add_timer()] *)
Definition add_timer (a : Shell) : Shell :=
  let i := List.length (timers a) in
  let t := __init__ (timer_label i) 30 in
  mkShell (timers a ++ [t]) (nav_buttons a ++ [(timer_label i, i)])
    (content a) (selected_index a) (S (shell_updates a)).

(** A click on the [j]-th button of the drawer calls [show_timer] with the
    index bound in that button's lambda. *)
Definition click_nav (j : nat) (a : Shell) : Shell * outcome :=
  match nth_error (nav_buttons a) j with
  | Some (_, i) => show_timer i a
  | None => (a, Done)
  end.

Fixpoint update_nth {A : Type} (i : nat) (f : A -> A) (l : list A) : list A :=
  match l, i with
  | [], _ => []
  | x :: r, O => f x :: r
  | x :: r, S i' => x :: update_nth i' f r
  end.

(** What happens in the application: a click in the drawer, a click on
    the add button, or something happening to the [i]-th timer (one of its
    buttons, its field, a turn of its task). *)
Inductive shell_action :=
| Click_nav (j : nat)
| Click_add
| On_timer (i : nat) (x : action).

Definition shell_step (a : Shell) (e : shell_action) : Shell :=
  match e with
  | Click_nav j => fst (click_nav j a)
  | Click_add => add_timer a
  | On_timer i x =>
      mkShell (update_nth i (fun t => step t x) (timers a)) (nav_buttons a)
        (content a) (selected_index a) (shell_updates a)
  end.

Definition shell_replay (a : Shell) (l : list shell_action) : Shell :=
  fold_left shell_step l a.

(** The actions of a history that concern the [j]-th timer. *)
Fixpoint own_actions (j : nat) (l : list shell_action) : list action :=
  match l with
  | [] => []
  | On_timer i x :: r =>
      if Nat.eqb i j then x :: own_actions j r else own_actions j r
  | _ :: r => own_actions j r
  end.

Fixpoint count_adds (l : list shell_action) : nat :=
  match l with
  | [] => 0
  | Click_add :: r => S (count_adds r)
  | _ :: r => count_adds r
  end.

(** The drawer and the timers agree: one button per timer, the [j]-th
    button bears the name of the [j]-th timer and is bound to [j], and the
    view shown is that of an existing timer. *)
Definition shell_ok (a : Shell) : Prop :=
  List.length (nav_buttons a) = List.length (timers a) /\
  (forall j, (j < List.length (timers a))%nat ->
     nth_error (nav_buttons a) j = Some (timer_label j, j) /\
     exists t, nth_error (timers a) j = Some t /\ name t = timer_label j) /\
  (content a < List.length (timers a))%nat /\
  selected_index a = content a.

(** ** One turn of the loop in the arithmetic of the interpreter *)












(** ** Facts about the primitives *)

Lemma le_true (a b : Q) : Py.le a b = true <-> (a <= b)%Q.
Proof. apply Qle_bool_iff. Qed.

Lemma le_false (a b : Q) : Py.le a b = false <-> (b < a)%Q.
Proof.
  unfold Py.le. split; intro H.
  - apply Qnot_le_lt. intro Hle. apply Qle_bool_iff in Hle. congruence.
  - destruct (Qle_bool a b) eqn:E; [|reflexivity].
    apply Qle_bool_iff in E. lra.
Qed.

Lemma lt_true (a b : Q) : Py.lt a b = true <-> (a < b)%Q.
Proof.
  unfold Py.lt. rewrite negb_true_iff. apply (le_false b a).
Qed.

Lemma lt_false (a b : Q) : Py.lt a b = false <-> (b <= a)%Q.
Proof.
  unfold Py.lt. rewrite negb_false_iff. apply (le_true b a).
Qed.

Lemma le_inject_pos (v : Z) : 0 < v -> Py.le (inject_Z v) 0 = false.
Proof.
  intro H. apply le_false. change 0%Q with (inject_Z 0).
  rewrite <- Zlt_Qlt. exact H.
Qed.

Lemma eq_refl_true (a : Q) : Py.eq a a = true.
Proof. apply Qeq_bool_iff. reflexivity. Qed.

Lemma ceil_inject (z : Z) : Py.ceil (inject_Z z) = z.
Proof.
  unfold Py.ceil, Qceiling.
  change (- inject_Z z)%Q with (inject_Z (- z)).
  rewrite Qfloor_Z. lia.
Qed.

(** Case analysis on every comparison left in the goal. *)
Ltac split_lt :=
  repeat match goal with
  | |- context [Py.lt ?a ?b] =>
      let E := fresh "E" in
      destruct (Py.lt a b) eqn:E;
      [apply lt_true in E | apply lt_false in E]
  end.

Lemma clamp_agrees (x : Q) : (Py.max 0 (Py.min 1 x) == clamp01 x)%Q.
Proof.
  unfold Py.max, Py.min, clamp01.
  destruct (Py.lt x 1) eqn:E1;
    [apply lt_true in E1 | apply lt_false in E1]; split_lt; lra.
Qed.

Lemma clamp_range (x : Q) : (0 <= clamp01 x <= 1)%Q.
Proof.
  unfold clamp01.
  destruct (Py.lt x 0) eqn:E0; [lra|].
  destruct (Py.lt 1 x) eqn:E1; [lra|].
  apply lt_false in E0. apply lt_false in E1. lra.
Qed.

Lemma inject_nonzero (z : Z) :
  0 < z -> Qeq_bool (inject_Z z) 0 = true -> False.
Proof.
  intros Hz H. apply Qeq_bool_iff in H.
  unfold Qeq, inject_Z in H. simpl in H. lia.
Qed.

(** [_progress_fraction] never raises: the division is guarded. *)
Lemma progress_fraction_total (t : CountdownTimer) :
  exists x, _progress_fraction t = Py.Ok x.
Proof.
  unfold _progress_fraction.
  destruct (total_seconds t <=? 0) eqn:E; [eexists; reflexivity|].
  apply Z.leb_gt in E. unfold Py.truediv.
  destruct (Qeq_bool (inject_Z (total_seconds t)) 0) eqn:E0.
  - exfalso. apply (inject_nonzero _ E E0).
  - eexists; reflexivity.
Qed.

(** ** The progress fraction *)

(** C9: a timer whose [total_seconds] is not positive has progress exactly
    0, whatever [remaining] is, and no division by zero happens; for a
    positive [total_seconds] the progress is
    [(total_seconds - remaining) / total_seconds] clamped into [0, 1]. *)
Theorem progress_fraction_spec (t : CountdownTimer) :
  exists x,
    _progress_fraction t = Py.Ok x /\
    (total_seconds t <= 0 -> x = 0%Q) /\
    (0 < total_seconds t ->
       (x == clamp01 ((inject_Z (total_seconds t) - remaining t)
                      / inject_Z (total_seconds t)))%Q) /\
    (0 <= x <= 1)%Q.
Proof.
  unfold _progress_fraction.
  destruct (total_seconds t <=? 0) eqn:E.
  - apply Z.leb_le in E. exists 0%Q. repeat split; try lra; lia.
  - apply Z.leb_gt in E. unfold Py.truediv.
    destruct (Qeq_bool (inject_Z (total_seconds t)) 0) eqn:E0.
    + exfalso. apply (inject_nonzero _ E E0).
    + cbn [Py.bind]. eexists. split; [reflexivity|].
      split; [lia|]. split.
      * intros _. apply clamp_agrees.
      * rewrite clamp_agrees. apply clamp_range.
Qed.

Lemma progress_fraction_spec_witness :
  _progress_fraction (set_remaining 7%Q (__init__ "Timer 0" 0)) = Py.Ok 0%Q /\
  exists x, _progress_fraction (set_remaining 15%Q (__init__ "Timer 1" 60)) = Py.Ok x
            /\ (x == 3 # 4)%Q.
Proof.
  split.
  - destruct (progress_fraction_spec (set_remaining 7%Q (__init__ "Timer 0" 0)))
      as [x [H [H0 _]]].
    rewrite H. f_equal. apply H0. simpl. lia.
  - destruct (progress_fraction_spec (set_remaining 15%Q (__init__ "Timer 1" 60)))
      as [x [H [_ [H1 _]]]].
    exists x. split; [exact H|]. rewrite H1; [|simpl; lia]. reflexivity.
Defined.

(** ** Reset *)

Lemma sync_ui_displayed (t : CountdownTimer) : displayed (_sync_ui t).
Proof. unfold displayed. cbn. repeat split; reflexivity. Qed.

Lemma sync_ui_refreshed (t : CountdownTimer) : refreshed t (_sync_ui t).
Proof.
  split; [cbn; lia | apply sync_ui_displayed].
Qed.

(** C6: whatever the state before, [reset] leaves [remaining] equal to
    [total_seconds] and [running] false, and refreshes the display: one
    page update is requested, the time text shows the full duration and
    the buttons are those of an idle timer. *)
Theorem reset_restores (t : CountdownTimer) :
  remaining (reset t) = inject_Z (total_seconds (reset t)) /\
  total_seconds (reset t) = total_seconds t /\
  running (reset t) = false /\
  refreshed t (reset t) /\
  page_updates (reset t) = S (page_updates t) /\
  time_text (reset t) = _format_time (total_seconds t) /\
  start_btn_disabled (reset t) = false /\
  pause_btn_disabled (reset t) = true /\
  reset_btn_disabled (reset t) = true.
Proof.
  unfold reset.
  split; [reflexivity|]. split; [reflexivity|]. split; [reflexivity|].
  split; [split; [cbn; lia | apply sync_ui_displayed]|].
  split; [reflexivity|].
  split; [cbn; now rewrite ceil_inject|].
  split; [reflexivity|]. split; [reflexivity|].
  cbn. now rewrite eq_refl_true.
Qed.

(** C10: [reset] writes [running] and [remaining] only: the name, the
    default duration, the configured duration, the text of the duration
    field and the task handle are what they were, so the duration that is
    restored is [total_seconds]. *)
Theorem reset_frame (t : CountdownTimer) :
  name (reset t) = name t /\
  default_seconds (reset t) = default_seconds t /\
  total_seconds (reset t) = total_seconds t /\
  input_value (reset t) = input_value t /\
  _task (reset t) = _task t /\
  tasks_spawned (reset t) = tasks_spawned t /\
  loop_steps (reset t) = loop_steps t /\
  remaining (reset t) = inject_Z (total_seconds t).
Proof. unfold reset. cbn. repeat split; reflexivity. Qed.

(** A timer created with 60 seconds, started with 90 in the field, then 45
    typed: [reset] restores 90, neither 45 nor 60. *)
Example reset_uses_total :
  let t := replay timer1 [Type_input "90"; Start; Wake 0; Wake 10;
                       Type_input "45"] in
  default_seconds t = 60 /\ input_value t = "45"%string /\
  total_seconds t = 90 /\ (remaining t == 80)%Q /\
  remaining (reset t) = 90%Q.
Proof. vm_compute. repeat split; congruence. Qed.

(** ** Start *)

(** C3: when the duration field holds a positive whole number [v], [start]
    sets [total_seconds] and [remaining] to [v] if [remaining <= 0] or [v]
    differs from [total_seconds], and leaves both as they are if
    [remaining > 0] and [v] is [total_seconds]. *)
Theorem start_reconfigures (t : CountdownTimer) (v : Z) :
  Py.int (input_value t) = Some v ->
  0 < v ->
  ((remaining t <= 0)%Q \/ v <> total_seconds t ->
     total_seconds (start t) = v /\ remaining (start t) = inject_Z v) /\
  ((0 < remaining t)%Q /\ v = total_seconds t ->
     total_seconds (start t) = total_seconds t /\
     remaining (start t) = remaining t).
Proof.
  intros Hp Hv. unfold start, start_parse. rewrite Hp.
  destruct (v <=? 0) eqn:E0; [apply Z.leb_le in E0; lia|].
  split.
  - intros Hc.
    assert (Hb : Py.le (remaining t) 0 || negb (v =? total_seconds t) = true).
    { apply orb_true_iff. destruct Hc as [Hc | Hc].
      - left. now apply le_true.
      - right. apply negb_true_iff. now apply Z.eqb_neq. }
    rewrite Hb. unfold start_activate.
    destruct (negb (running _)); [destruct (no_live_task _)|]; cbn; auto.
  - intros [Hr He].
    assert (Hb : Py.le (remaining t) 0 || negb (v =? total_seconds t) = false).
    { apply orb_false_iff. split.
      - now apply le_false.
      - apply negb_false_iff. now apply Z.eqb_eq. }
    rewrite Hb. unfold start_activate.
    destruct (negb (running _)); [destruct (no_live_task _)|]; cbn; auto.
Qed.

(** The three cases named by the specification. *)
Lemma start_reconfigures_witness :
  (total_seconds running_60_40 = 60 /\ (remaining running_60_40 == 40)%Q) /\
  (let t := set_input_value "60" running_60_40 in
   total_seconds (start t) = 60 /\ remaining (start t) = remaining t) /\
  (let t := set_input_value "90" running_60_40 in
   total_seconds (start t) = 90 /\ remaining (start t) = 90%Q) /\
  (let t := set_input_value "45" finished_60 in
   remaining t = 0%Q /\
   total_seconds (start t) = 45 /\ remaining (start t) = 45%Q).
Proof.
  split; [vm_compute; split; congruence|].
  split; [|split].
  - apply (start_reconfigures (set_input_value "60" running_60_40) 60).
    + reflexivity.
    + lia.
    + split; [vm_compute; reflexivity | reflexivity].
  - apply (start_reconfigures (set_input_value "90" running_60_40) 90).
    + reflexivity.
    + lia.
    + right. vm_compute. congruence.
  - split; [reflexivity|].
    apply (start_reconfigures (set_input_value "45" finished_60) 45).
    + reflexivity.
    + lia.
    + left. vm_compute. congruence.
Defined.

Lemma start_activate_running (t : CountdownTimer) :
  running (start_activate t) = true.
Proof.
  unfold start_activate. destruct (running t) eqn:E; cbn; [exact E|].
  now destruct (no_live_task _).
Qed.

Lemma start_activate_frame (t : CountdownTimer) :
  total_seconds (start_activate t) = total_seconds t /\
  remaining (start_activate t) = remaining t /\
  input_value (start_activate t) = input_value t.
Proof.
  unfold start_activate. destruct (running t); cbn; [auto|].
  destruct (no_live_task _); cbn; auto.
Qed.

Lemma start_activate_idle (t : CountdownTimer) :
  running t = true -> start_activate t = t.
Proof. intro H. unfold start_activate. now rewrite H. Qed.

Lemma start_activate_refreshed (t0 t : CountdownTimer) :
  (page_updates t0 <= page_updates t)%nat ->
  running t = false -> refreshed t0 (start_activate t).
Proof.
  intros Hle Hr. unfold start_activate. rewrite Hr. cbn [negb].
  split; [|apply sync_ui_displayed].
  destruct (no_live_task _); cbn; lia.
Qed.

(** When [start] neither rewrites the duration nor sets the timer running,
    it changes nothing at all. *)
Lemma start_noop (t : CountdownTimer) :
  reconfigures t || activates t = false -> start t = t.
Proof.
  unfold reconfigures, activates, start, start_parse. intro H.
  apply orb_false_iff in H. destruct H as [Hrec Hact].
  destruct (Py.int (input_value t)) as [v|].
  - destruct (v <=? 0) eqn:E0; [reflexivity|].
    apply Z.leb_gt in E0. apply Z.ltb_lt in E0. rewrite E0 in Hrec, Hact.
    cbn [andb] in Hrec. rewrite Hrec.
    apply start_activate_idle.
    rewrite andb_true_r in Hact. now apply negb_false_iff.
  - apply start_activate_idle.
    rewrite andb_true_r in Hact. now apply negb_false_iff.
Qed.

Lemma start_does (t : CountdownTimer) :
  reconfigures t || activates t = true -> refreshed t (start t).
Proof.
  unfold reconfigures, activates, start, start_parse. intro H.
  destruct (Py.int (input_value t)) as [v|].
  - destruct (v <=? 0) eqn:E0.
    + apply Z.leb_le in E0. assert (Hv : (0 <? v) = false) by (apply Z.ltb_ge; lia).
      rewrite Hv in H. rewrite andb_false_r in H. discriminate.
    + apply Z.leb_gt in E0. apply Z.ltb_lt in E0. rewrite E0 in H.
      cbn [andb] in H. rewrite andb_true_r in H.
      destruct (Py.le (remaining t) 0 || negb (v =? total_seconds t)).
      * destruct (running t) eqn:Hr.
        -- rewrite start_activate_idle by exact Hr.
           split; [cbn; lia | apply sync_ui_displayed].
        -- apply start_activate_refreshed; [cbn; lia | exact Hr].
      * cbn [orb] in H. apply negb_true_iff in H.
        apply start_activate_refreshed; [lia | exact H].
  - cbn [orb] in H. rewrite andb_true_r in H. apply negb_true_iff in H.
    apply start_activate_refreshed; [lia | exact H].
Qed.

(** C1, as amended: when the duration field does not hold a positive whole
    number, [start] leaves [total_seconds] and [remaining] as they are.  If
    the text is not a whole number at all and the timer is not running, the
    timer is set running with the duration it had, a task is spawned
    exactly when none is alive, and the display is refreshed.  If the text
    is a whole number below 1, [start] returns at once and nothing changes:
    a paused timer stays paused. *)
Theorem start_without_positive_number (t : CountdownTimer) :
  (forall v, Py.int (input_value t) = Some v -> v <= 0) ->
  total_seconds (start t) = total_seconds t /\
  remaining (start t) = remaining t /\
  (Py.int (input_value t) = None -> running t = false ->
     running (start t) = true /\
     _task (start t) =
       (if no_live_task t then Some (mkTask false None) else _task t) /\
     tasks_spawned (start t) =
       (if no_live_task t then S (tasks_spawned t) else tasks_spawned t) /\
     refreshed t (start t)) /\
  (Py.int (input_value t) <> None -> start t = t).
Proof.
  intro Hnp. unfold start, start_parse.
  destruct (Py.int (input_value t)) as [v|] eqn:Hp.
  - assert (E0 : (v <=? 0) = true) by (apply Z.leb_le; now apply Hnp).
    rewrite E0. split; [reflexivity|]. split; [reflexivity|].
    split; [intro H; discriminate | reflexivity].
  - destruct (start_activate_frame t) as [Ht [Hr _]].
    split; [exact Ht|]. split; [exact Hr|]. split; [|congruence].
    intros _ Hrun. split; [apply start_activate_running|].
    split; [|split].
    + unfold start_activate. rewrite Hrun. cbn [negb].
      change (no_live_task (set_running true t)) with (no_live_task t).
      now destruct (no_live_task t).
    + unfold start_activate. rewrite Hrun. cbn [negb].
      change (no_live_task (set_running true t)) with (no_live_task t).
      now destruct (no_live_task t).
    + apply start_activate_refreshed; [lia | exact Hrun].
Qed.

Lemma start_without_positive_number_witness :
  let t := set_input_value "abc" finished_60 in
  total_seconds (start t) = 60 /\ remaining (start t) = 0%Q /\
  running t = false /\ running (start t) = true /\
  tasks_spawned (start t) = 2%nat.
Proof.
  intro t.
  destruct (start_without_positive_number t) as [Ht [Hr [Ha _]]].
  - intros v Hv. vm_compute in Hv. discriminate.
  - destruct Ha as [Hrun [_ [Hs _]]]; [reflexivity | reflexivity |].
    split; [rewrite Ht; reflexivity|].
    split; [rewrite Hr; reflexivity|].
    split; [reflexivity|]. split; [exact Hrun|].
    rewrite Hs. reflexivity.
Defined.

(** C1 fails for a whole number below 1: with "0" or "-5" in the field, a
    paused timer is still paused after [start]. *)
Lemma start_zero_stays_paused :
  let t := set_input_value "0" timer1 in
  let t' := set_input_value "-5" timer1 in
  Py.int (input_value t) = Some 0 /\ running t = false /\
  running (start t) = false /\
  Py.int (input_value t') = Some (-5) /\ running t' = false /\
  running (start t') = false.
Proof. vm_compute. repeat split; reflexivity. Qed.

(** C2, as amended: [start] refreshes the display exactly when it rewrites
    the duration or sets the timer running; otherwise (the timer is
    running and the duration stays, or the field holds a whole number below
    1 and nothing is rewritten) it requests no page update and changes
    nothing. *)
Theorem start_refreshes_when_it_acts (t : CountdownTimer) :
  (reconfigures t || activates t = true -> refreshed t (start t)) /\
  (reconfigures t || activates t = false ->
     start t = t /\ page_updates (start t) = page_updates t).
Proof.
  split.
  - apply start_does.
  - intro H. rewrite (start_noop t H). split; reflexivity.
Qed.

Lemma start_refreshes_when_it_acts_witness :
  refreshed (set_input_value "90" running_60_40)
            (start (set_input_value "90" running_60_40)) /\
  page_updates (start running_60_40) = page_updates running_60_40.
Proof.
  split.
  - apply (start_refreshes_when_it_acts (set_input_value "90" running_60_40)).
    reflexivity.
  - apply (start_refreshes_when_it_acts running_60_40). reflexivity.
Defined.

(** C2 fails on a running timer whose field holds its duration: [start]
    requests no page update. *)
Lemma start_without_refresh :
  running running_60_40 = true /\
  Py.int (input_value running_60_40) = Some 60 /\
  page_updates (start running_60_40) = page_updates running_60_40 /\
  ~ refreshed running_60_40 (start running_60_40).
Proof.
  split; [reflexivity|]. split; [reflexivity|]. split; [reflexivity|].
  intros [H _]. vm_compute in H. lia.
Qed.

(** C8, as amended: on a running timer with time left, [start] with the
    field holding [total_seconds] changes nothing: no task is spawned,
    [remaining] is kept and [running] stays true. *)
Theorem start_while_running (t : CountdownTimer) :
  running t = true ->
  Py.int (input_value t) = Some (total_seconds t) ->
  0 < total_seconds t ->
  (0 < remaining t)%Q ->
  start t = t /\
  tasks_spawned (start t) = tasks_spawned t /\
  _task (start t) = _task t /\
  remaining (start t) = remaining t /\
  running (start t) = true.
Proof.
  intros Hrun Hp Hpos Hrem.
  assert (H : start t = t).
  { apply start_noop. unfold reconfigures, activates.
    rewrite Hp, Hrun, Z.eqb_refl. cbn [negb andb orb].
    rewrite !orb_false_r. apply andb_false_iff. right. now apply le_false. }
  rewrite H. auto.
Qed.

Lemma start_while_running_witness :
  start running_60_40 = running_60_40 /\
  tasks_spawned (start running_60_40) = 1%nat.
Proof.
  destruct (start_while_running running_60_40) as [H [Hs _]].
  - reflexivity.
  - reflexivity.
  - reflexivity.
  - vm_compute. reflexivity.
  - split; [exact H|]. rewrite Hs. reflexivity.
Defined.

(** C8 fails on a running timer with nothing left: [start] with the field
    holding [total_seconds] sets [remaining] back to the full duration. *)
Lemma start_while_running_at_zero :
  running restarted_at_zero = true /\
  total_seconds restarted_at_zero = 60 /\
  Py.int (input_value restarted_at_zero) = Some 60 /\
  remaining restarted_at_zero = 0%Q /\
  remaining (start restarted_at_zero) = 60%Q /\
  start restarted_at_zero <> restarted_at_zero.
Proof.
  vm_compute. repeat split; try reflexivity. intro H. discriminate H.
Qed.

(** Pressing Start twice has the effect of pressing it once, whatever the
    state and the text of the field. *)
Lemma start_twice (t : CountdownTimer) : start (start t) = start t.
Proof.
  destruct (reconfigures (start t) || activates (start t)) eqn:E;
    [|now apply start_noop].
  exfalso. revert E. unfold reconfigures, activates, start at 1 2 3 4 5.
  unfold start_parse.
  destruct (Py.int (input_value t)) as [v|] eqn:Hp.
  - destruct (v <=? 0) eqn:E0.
    + rewrite Hp. apply Z.leb_le in E0.
      assert (Hv : (0 <? v) = false) by (apply Z.ltb_ge; lia).
      rewrite Hv, andb_false_r. discriminate.
    + apply Z.leb_gt in E0.
      destruct (Py.le (remaining t) 0 || negb (v =? total_seconds t)) eqn:Ec.
      * destruct (start_activate_frame
                    (_sync_ui (set_remaining (inject_Z v)
                                 (set_total_seconds v t)))) as [Ht [Hr Hi]].
        rewrite Ht, Hr, Hi, start_activate_running. cbn.
        rewrite Hp, Z.eqb_refl, (le_inject_pos v E0).
        cbn. rewrite andb_false_r. discriminate.
      * destruct (start_activate_frame t) as [Ht [Hr Hi]].
        rewrite Ht, Hr, Hi, start_activate_running, Hp, Ec.
        cbn. rewrite andb_false_r. discriminate.
  - destruct (start_activate_frame t) as [Ht [Hr Hi]].
    rewrite Hi, start_activate_running, Hp. discriminate.
Qed.

(** ** The invariant [0 <= remaining <= total_seconds] *)












(** ** Completion of a countdown *)

(** Once the task is done, nothing but [start] touches it, and no turn of
    the loop is executed. *)
Lemma done_task_idle (l : list action) :
  forall (t : CountdownTimer) (k : Task),
    _task t = Some k -> done k = true -> Forall (fun a => a <> Start) l ->
    _task (replay t l) = Some k /\ loop_steps (replay t l) = loop_steps t.
Proof.
  induction l as [|a l IH]; intros t k Hk Hd Hl; [cbn; auto|].
  inversion Hl as [|a' l' Ha Hl']; subst.
  assert (Hs : _task (step t a) = Some k /\ loop_steps (step t a) = loop_steps t).
  { destruct a as [s| | | |now]; cbn [step].
    - auto.
    - congruence.
    - unfold pause. destruct (running t); auto.
    - auto.
    - unfold wake. rewrite Hk, Hd. auto. }
  destruct Hs as [Hk' Hn].
  destruct (IH (step t a) k Hk' Hd Hl') as [H1 H2].
  change (replay t (a :: l)) with (replay (step t a) l).
  split; [exact H1 | congruence].
Qed.

(** C5: when a live task of a running timer takes the turn in which
    [remaining] minus the elapsed time is not positive, the turn sets
    [remaining] to exactly 0 and [running] to false, refreshes the display
    and leaves the loop: the task is done, the loop consumes no further
    clock reading, no later turn is executed whatever else happens short of
    [start], and [start] (with a field that does not make it return early)
    spawns a fresh task. *)
Theorem completion_turn (now : Q) (t : CountdownTimer) (k : Task) :
  running t = true ->
  _task t = Some k ->
  done k = false ->
  (remaining t - (now - match last_tick k with Some l => l | None => now end)
   <= 0)%Q ->
  remaining (wake now t) = 0%Q /\
  running (wake now t) = false /\
  refreshed t (wake now t) /\
  _task (wake now t) = Some (mkTask true (Some now)) /\
  loop_steps (wake now t) = S (loop_steps t) /\
  (forall rest, snd (_run (now :: rest) (last_tick k) t) = rest) /\
  (forall l, Forall (fun a => a <> Start) l ->
     _task (replay (wake now t) l) = Some (mkTask true (Some now)) /\
     loop_steps (replay (wake now t) l) = loop_steps (wake now t)) /\
  ((forall v, Py.int (input_value t) = Some v -> 0 < v) ->
     _task (start (wake now t)) = Some (mkTask false None) /\
     tasks_spawned (start (wake now t)) = S (tasks_spawned t) /\
     running (start (wake now t)) = true).
Proof.
  intros Hrun Hk Hd Hle.
  assert (Hc : Py.le (remaining t -
                      (now - match last_tick k with Some l => l | None => now end))
                     0 = true) by now apply le_true.
  assert (Hw : wake now t =
               set_task (Some (mkTask true (Some now)))
                 (_sync_ui (set_running false (set_remaining 0%Q
                    (count_loop_step t))))).
  { unfold wake, run_body. rewrite Hk, Hd.
    change (running (count_loop_step t)) with (running t). rewrite Hrun.
    cbn [negb]. cbn [remaining set_remaining count_loop_step].
    rewrite Hc. reflexivity. }
  split; [rewrite Hw; reflexivity|]. split; [rewrite Hw; reflexivity|].
  split.
  { rewrite Hw. split; [cbn; lia|]. unfold displayed. cbn. auto 10. }
  split; [rewrite Hw; reflexivity|]. split; [rewrite Hw; reflexivity|].
  split.
  { intro rest. cbn [_run]. unfold run_body. rewrite Hrun. cbn [negb].
    cbn [remaining set_remaining]. rewrite Hc. reflexivity. }
  split.
  { intros l Hl.
    apply (done_task_idle l (wake now t) (mkTask true (Some now)));
      [rewrite Hw; reflexivity | reflexivity | exact Hl]. }
  intro Hpos. rewrite Hw. unfold start, start_parse.
  cbn [input_value set_task _sync_ui set_running set_remaining count_loop_step].
  destruct (Py.int (input_value t)) as [v|] eqn:Hp.
  - specialize (Hpos v eq_refl).
    destruct (v <=? 0) eqn:E0; [apply Z.leb_le in E0; lia|].
    cbn [remaining set_task _sync_ui set_running set_remaining count_loop_step].
    assert (H0 : Py.le 0 0 = true) by reflexivity.
    rewrite H0. cbn [orb]. cbn. auto.
  - cbn. auto.
Qed.

Lemma completion_turn_witness :
  let t := replay timer1 [Start; Wake 0; Wake 20] in
  remaining (wake 100 t) = 0%Q /\ running (wake 100 t) = false /\
  time_text (wake 100 t) = "00:00"%string /\
  loop_steps (replay (wake 100 t) [Wake 101; Pause; Wake 102; Reset; Wake 103])
  = 3%nat.
Proof.
  intro t.
  destruct (completion_turn 100 t (mkTask false (Some 20%Q)))
    as [Hr [Hn [_ [_ [_ [_ [Hl _]]]]]]].
  - reflexivity.
  - reflexivity.
  - reflexivity.
  - vm_compute. discriminate.
  - split; [exact Hr|]. split; [exact Hn|]. split; [reflexivity|].
    destruct (Hl [Wake 101; Pause; Wake 102; Reset; Wake 103]) as [_ H].
    + repeat constructor; discriminate.
    + rewrite H. reflexivity.
Defined.

(** ** The time text *)

Lemma append_assoc (a b c : string) : ((a ++ b) ++ c = a ++ (b ++ c))%string.
Proof. induction a as [|x a IH]; cbn; [reflexivity | now rewrite IH]. Qed.

Lemma append_length (a b : string) :
  String.length (a ++ b) = (String.length a + String.length b)%nat.
Proof. induction a as [|x a IH]; cbn; [reflexivity | now rewrite IH]. Qed.

Lemma digit_cases (d : Z) :
  0 <= d < 10 ->
  d = 0 \/ d = 1 \/ d = 2 \/ d = 3 \/ d = 4 \/
  d = 5 \/ d = 6 \/ d = 7 \/ d = 8 \/ d = 9.
Proof. lia. Qed.

Lemma digit_val_char (d : Z) :
  0 <= d < 10 -> Py.digit_val (Py.digit_char d) = Some d.
Proof.
  intro H. destruct (digit_cases d H) as [E|[E|[E|[E|[E|[E|[E|[E|[E|E]]]]]]]]];
    subst d; reflexivity.
Qed.

Lemma digit_char_nonzero (d : Z) :
  0 < d < 10 -> Py.digit_char d <> "0"%char.
Proof.
  intro H. assert (H' : 0 <= d < 10) by lia.
  destruct (digit_cases d H') as [E|[E|[E|[E|[E|[E|[E|[E|[E|E]]]]]]]]];
    subst d; try lia; discriminate.
Qed.

Lemma digits_value_app (a b : string) :
  forall acc,
    digits_value (a ++ b) acc =
    match digits_value a acc with
    | Some v => digits_value b v
    | None => None
    end.
Proof.
  induction a as [|x a IH]; intro acc; cbn; [reflexivity|].
  destruct (Py.digit_val x); [apply IH | reflexivity].
Qed.

Lemma digits_fuel_acc (f : nat) :
  forall n acc,
    Py.digits_fuel f n acc = (Py.digits_fuel f n EmptyString ++ acc)%string.
Proof.
  induction f as [|f IH]; intros n acc; cbn [Py.digits_fuel]; [reflexivity|].
  destruct (n <? 10); [reflexivity|].
  rewrite (IH (n / 10) (String _ acc)).
  rewrite (IH (n / 10) (String _ EmptyString)).
  now rewrite append_assoc.
Qed.

Lemma digits_fuel_step (f : nat) (n : Z) :
  10 <= n ->
  Py.digits_fuel (S f) n EmptyString =
  (Py.digits_fuel f (n / 10) EmptyString
   ++ String (Py.digit_char (n mod 10)) EmptyString)%string.
Proof.
  intro H. cbn [Py.digits_fuel].
  assert (E : (n <? 10) = false) by (apply Z.ltb_ge; lia). rewrite E.
  apply digits_fuel_acc.
Qed.

Lemma digits_fuel_small (f : nat) (n : Z) :
  n < 10 ->
  Py.digits_fuel (S f) n EmptyString = String (Py.digit_char (n mod 10)) EmptyString.
Proof.
  intro H. cbn [Py.digits_fuel].
  assert (E : (n <? 10) = true) by (apply Z.ltb_lt; lia). now rewrite E.
Qed.

(** With enough fuel the digits written are those of [n]. *)
Lemma digits_fuel_value (f : nat) :
  forall n, 0 <= n < 10 ^ Z.of_nat (S f) ->
            digits_value (Py.digits_fuel (S f) n EmptyString) 0 = Some n.
Proof.
  induction f as [|f IH]; intros n Hn.
  - change (10 ^ Z.of_nat 1) with 10 in Hn.
    rewrite digits_fuel_small by lia. cbn [digits_value].
    rewrite digit_val_char by (apply Z.mod_pos_bound; lia).
    rewrite Z.mod_small by lia. f_equal; lia.
  - destruct (Z.lt_ge_cases n 10) as [Hs|Hb].
    + rewrite digits_fuel_small by lia. cbn [digits_value].
      rewrite digit_val_char by (apply Z.mod_pos_bound; lia).
      rewrite Z.mod_small by lia. f_equal; lia.
    + rewrite digits_fuel_step by lia. rewrite digits_value_app.
      rewrite IH.
      * cbn [digits_value].
        rewrite digit_val_char by (apply Z.mod_pos_bound; lia).
        f_equal. pose proof (Z.div_mod n 10). lia.
      * split; [apply Z.div_pos; lia|].
        apply Z.div_lt_upper_bound; [lia|].
        replace (Z.of_nat (S (S f))) with (Z.succ (Z.of_nat (S f))) in Hn by lia.
        rewrite Z.pow_succ_r in Hn by lia. lia.
Qed.

Lemma digits_fuel_nonempty (f : nat) (n : Z) :
  (1 <= String.length (Py.digits_fuel (S f) n EmptyString))%nat.
Proof.
  rewrite digits_fuel_acc. cbn [Py.digits_fuel].
  destruct (n <? 10); [cbn; lia|].
  rewrite digits_fuel_acc, !append_length. cbn. lia.
Qed.

Lemma digits_fuel_leading (f : nat) :
  forall n, 0 < n < 10 ^ Z.of_nat (S f) ->
            leading_nonzero (Py.digits_fuel (S f) n EmptyString).
Proof.
  induction f as [|f IH]; intros n Hn.
  - change (10 ^ Z.of_nat 1) with 10 in Hn.
    rewrite digits_fuel_small by lia.
    eexists _, _. split; [reflexivity|].
    apply digit_char_nonzero. rewrite Z.mod_small; lia.
  - destruct (Z.lt_ge_cases n 10) as [Hs|Hb].
    + rewrite digits_fuel_small by lia.
      eexists _, _. split; [reflexivity|].
      apply digit_char_nonzero. rewrite Z.mod_small; lia.
    + rewrite digits_fuel_step by lia.
      destruct (IH (n / 10)) as [c [r [E Hc]]].
      * split; [apply Z.div_str_pos; lia|].
        apply Z.div_lt_upper_bound; [lia|].
        replace (Z.of_nat (S (S f))) with (Z.succ (Z.of_nat (S f))) in Hn by lia.
        rewrite Z.pow_succ_r in Hn by lia. lia.
      * rewrite E. eexists _, _. split; [reflexivity | exact Hc].
Qed.

(** The fuel taken by [str_of_nonneg] is enough. *)
Lemma fuel_enough (n : Z) :
  0 <= n -> n < 10 ^ Z.of_nat (S (Z.to_nat (Z.log2 n))).
Proof.
  intro H. pose proof (Z.log2_nonneg n) as Hl.
  replace (Z.of_nat (S (Z.to_nat (Z.log2 n)))) with (Z.succ (Z.log2 n)) by lia.
  destruct (Z.eq_dec n 0) as [->|Hn]; [reflexivity|].
  apply Z.lt_le_trans with (2 ^ Z.succ (Z.log2 n)).
  - apply Z.log2_spec. lia.
  - apply Z.pow_le_mono_l. lia.
Qed.

Lemma str_of_nonneg_value (n : Z) :
  0 <= n -> digits_value (Py.str_of_nonneg n) 0 = Some n.
Proof.
  intro H. unfold Py.str_of_nonneg. apply digits_fuel_value.
  split; [exact H | now apply fuel_enough].
Qed.

Lemma str_of_nonneg_length1 (n : Z) :
  0 <= n < 10 -> String.length (Py.str_of_nonneg n) = 1%nat.
Proof.
  intro H. unfold Py.str_of_nonneg. now rewrite digits_fuel_small by lia.
Qed.

Lemma str_of_nonneg_length2 (n : Z) :
  10 <= n -> (2 <= String.length (Py.str_of_nonneg n))%nat /\
             (n < 100 -> String.length (Py.str_of_nonneg n) = 2%nat).
Proof.
  intro H. unfold Py.str_of_nonneg.
  assert (Hl : 3 <= Z.log2 n).
  { change 3 with (Z.log2 10). apply Z.log2_le_mono. lia. }
  destruct (Z.to_nat (Z.log2 n)) as [|f] eqn:E; [lia|].
  rewrite digits_fuel_step by lia. rewrite append_length. cbn [String.length].
  pose proof (digits_fuel_nonempty f (n / 10)).
  split; [lia|]. intro Hn.
  rewrite digits_fuel_small; [cbn; lia|].
  apply Z.div_lt_upper_bound; lia.
Qed.

(** [format_02d] writes the field of the specification. *)
Lemma format_02d_padded (v : Z) : 0 <= v -> zero_padded2 v (Py.format_02d v).
Proof.
  intro H. unfold Py.format_02d.
  assert (E : (v <? 0) = false) by (apply Z.ltb_ge; lia). rewrite E.
  destruct (Z.lt_ge_cases v 10) as [Hs|Hb].
  - rewrite str_of_nonneg_length1 by lia. cbn [Nat.sub Py.zeros append].
    unfold zero_padded2. cbn [field_value digits_value String.length].
    rewrite str_of_nonneg_length1 by lia.
    split; [|split; [lia|split; [reflexivity|lia]]].
    change (Py.digit_val "0") with (Some 0). cbn [Z.mul Z.add].
    now apply str_of_nonneg_value.
  - destruct (str_of_nonneg_length2 v Hb) as [H2 H3].
    replace (2 - String.length (Py.str_of_nonneg v))%nat with 0%nat by lia.
    cbn [Py.zeros append]. unfold zero_padded2.
    split; [|split; [exact H2|split; [exact H3|]]].
    + unfold field_value.
      destruct (Py.str_of_nonneg v) eqn:Es; [cbn in H2; lia|].
      rewrite <- Es. now apply str_of_nonneg_value.
    + intros _. unfold Py.str_of_nonneg. apply digits_fuel_leading.
      split; [lia | apply fuel_enough; lia].
Qed.

(** C7: for [s >= 0] the time text is the minutes field, a colon and the
    seconds field; the minutes field writes [s / 60] (not reduced modulo
    60), the seconds field writes [s mod 60], each padded with zeros to two
    digits; a negative [s] is formatted as 0.  So 125 gives "02:05", 0
    gives "00:00" and 3661 gives "61:01". *)
Theorem format_time_spec :
  (forall s, 0 <= s ->
     exists mm ss,
       _format_time s = (mm ++ ":" ++ ss)%string /\
       zero_padded2 (s / 60) mm /\
       zero_padded2 (s mod 60) ss /\
       String.length ss = 2%nat) /\
  (forall s, s < 0 -> _format_time s = "00:00"%string) /\
  _format_time 125 = "02:05"%string /\
  _format_time 0 = "00:00"%string /\
  _format_time 3661 = "61:01"%string.
Proof.
  split; [|split; [|repeat split; reflexivity]].
  - intros s Hs. unfold _format_time.
    assert (E : (s <? 0) = false) by (apply Z.ltb_ge; lia). rewrite E.
    exists (Py.format_02d (s / 60)), (Py.format_02d (s mod 60)).
    pose proof (Z.mod_pos_bound s 60 ltac:(lia)) as Hm.
    assert (Hp := format_02d_padded (s mod 60) ltac:(lia)).
    split; [reflexivity|]. split; [|split; [exact Hp|]].
    + apply format_02d_padded. apply Z.div_pos; lia.
    + destruct Hp as [_ [_ [Hl _]]]. apply Hl. lia.
  - intros s Hs. unfold _format_time.
    assert (E : (s <? 0) = true) by (apply Z.ltb_lt; lia). now rewrite E.
Qed.

Lemma format_time_spec_witness :
  exists mm ss,
    _format_time 7384 = (mm ++ ":" ++ ss)%string /\
    field_value mm = Some 123 /\ field_value ss = Some 4.
Proof.
  destruct format_time_spec as [H _].
  destruct (H 7384) as [mm [ss [E [[Hm _] [[Hs _] _]]]]]; [lia|].
  exists mm, ss. split; [exact E|]. split; [exact Hm | exact Hs].
Defined.

(** ** The parser on the texts named by the specification *)

Example int_abc : Py.int "abc" = None.
Proof. reflexivity. Qed.

Example int_minus5 : Py.int "-5" = Some (-5).
Proof. reflexivity. Qed.

Example int_zero : Py.int "0" = Some 0.
Proof. reflexivity. Qed.

Example int_empty : Py.int "" = None.
Proof. reflexivity. Qed.

Example int_spaces : Py.int " 60 " = Some 60.
Proof. reflexivity. Qed.

Example int_underscore : Py.int "1_000" = Some 1000 /\ Py.int "1__0" = None.
Proof. split; reflexivity. Qed.

(** ** [int] reads back what [str] and [_format_time] write *)

Lemma scan_digits_all (s : string) :
  forall acc v,
    digits_value s acc = Some v ->
    Py.scan_digits s acc false true = Some (v, EmptyString).
Proof.
  induction s as [|c r IH]; intros acc v H; cbn in *.
  - now injection H as ->.
  - destruct (Py.digit_val c); [now apply IH | discriminate].
Qed.

Lemma scan_digits_first (c : ascii) (r : string) (d acc : Z) :
  Py.digit_val c = Some d ->
  Py.scan_digits (String c r) acc false false =
  Py.scan_digits r (10 * acc + d) false true.
Proof. intro H. cbn. now rewrite H. Qed.

(** [int] accepts every non-empty text of decimal digits and returns the
    number it writes. *)
Lemma int_of_digits (s : string) (v : Z) :
  field_value s = Some v -> Py.int s = Some v.
Proof.
  destruct s as [|c r]; [discriminate|].
  unfold field_value. cbn [digits_value].
  destruct (Py.digit_val c) as [d|] eqn:E; [|discriminate].
  intro H. apply scan_digits_all in H.
  destruct c as [[] [] [] [] [] [] [] []];
    vm_compute in E; try discriminate E;
    injection E as <-; unfold Py.int; cbn [Py.skip_spaces];
    match goal with
    | |- context [Py.is_space ?c] => change (Py.is_space c) with false
    end;
    cbv iota beta;
    erewrite scan_digits_first by (vm_compute; reflexivity);
    rewrite H; reflexivity.
Qed.

Lemma str_of_nonneg_field (n : Z) :
  0 <= n -> field_value (Py.str_of_nonneg n) = Some n.
Proof.
  intro H. pose proof (str_of_nonneg_value n H) as Hv.
  unfold field_value. destruct (Py.str_of_nonneg n) eqn:E; [|exact Hv].
  unfold Py.str_of_nonneg in E.
  pose proof (digits_fuel_nonempty (Z.to_nat (Z.log2 n)) n) as Hl.
  rewrite E in Hl. cbn in Hl. lia.
Qed.

(** The text written by [str] for an int is read back by [int] as the same
    int, whatever its sign. *)
Theorem int_str_round_trip (n : Z) : Py.int (Py.str n) = Some n.
Proof.
  unfold Py.str. destruct (n <? 0) eqn:E.
  - apply Z.ltb_lt in E.
    pose proof (str_of_nonneg_field (- n) ltac:(lia)) as Hf.
    unfold field_value in Hf.
    destruct (Py.str_of_nonneg (- n)) as [|c r] eqn:Es; [discriminate|].
    cbn [digits_value] in Hf.
    destruct (Py.digit_val c) as [d|] eqn:Ed; [|discriminate].
    apply scan_digits_all in Hf.
    unfold Py.int. cbn [Py.skip_spaces].
    change (Py.is_space "-") with false. cbv iota beta.
    rewrite (scan_digits_first c r d 0 Ed), Hf. cbn. f_equal. lia.
  - apply Z.ltb_ge in E. apply int_of_digits. now apply str_of_nonneg_field.
Qed.

Lemma field_value_no_colon (m : string) :
  forall acc v rest,
    digits_value m acc = Some v ->
    split_colon (m ++ String ":" rest) = Some (m, rest).
Proof.
  induction m as [|c r IH]; intros acc v rest H; cbn in *; [reflexivity|].
  destruct (Py.digit_val c) as [d|] eqn:E; [|discriminate].
  assert (Hc : Ascii.eqb c ":" = false).
  { destruct (Ascii.eqb c ":") eqn:Ec; [|reflexivity].
    apply Ascii.eqb_eq in Ec. subst c. discriminate E. }
  rewrite Hc. now rewrite (IH _ _ rest H).
Qed.

Lemma format_time_reads_back (s : Z) :
  0 <= s -> parse_time (_format_time s) = Some s.
Proof.
  intro Hs. unfold _format_time.
  assert (E : (s <? 0) = false) by (apply Z.ltb_ge; lia). rewrite E.
  pose proof (Z.mod_pos_bound s 60 ltac:(lia)) as Hm.
  destruct (format_02d_padded (s / 60) ltac:(apply Z.div_pos; lia))
    as [Hmm _].
  destruct (format_02d_padded (s mod 60) ltac:(lia)) as [Hss _].
  unfold parse_time.
  assert (Hd : exists v, digits_value (Py.format_02d (s / 60)) 0 = Some v).
  { unfold field_value in Hmm.
    destruct (Py.format_02d (s / 60)); [discriminate | eauto]. }
  destruct Hd as [v Hd].
  change (":" ++ Py.format_02d (s mod 60))%string
    with (String ":" (Py.format_02d (s mod 60))).
  rewrite (field_value_no_colon _ 0 v _ Hd), Hmm, Hss.
  f_equal. pose proof (Z.div_mod s 60). lia.
Qed.

(** Two different numbers of seconds never get the same time text. *)
Lemma format_time_injective (a b : Z) :
  0 <= a -> 0 <= b -> _format_time a = _format_time b -> a = b.
Proof.
  intros Ha Hb H. apply (f_equal parse_time) in H.
  rewrite !format_time_reads_back in H by assumption. now injection H.
Qed.

(** The time text determines the number of seconds it was made from:
    reading the two fields of [_format_time s] back gives [s], so no other
    number of seconds is written the same way. *)
Theorem parse_format_time (s : Z) :
  0 <= s ->
  parse_time (_format_time s) = Some s /\
  (forall s', 0 <= s' -> _format_time s' = _format_time s -> s' = s).
Proof.
  intro Hs. split; [now apply format_time_reads_back|].
  intros s' Hs' H. now apply format_time_injective.
Qed.

Lemma parse_format_time_witness :
  parse_time (_format_time 3661) = Some 3661.
Proof. apply (parse_format_time 3661). lia. Defined.

Lemma ceil_positive (q : Q) : (0 < q)%Q -> 0 < Py.ceil q.
Proof.
  intro H. unfold Py.ceil. pose proof (Qle_ceiling q) as Hc.
  rewrite Zlt_Qlt. change (inject_Z 0) with 0%Q. lra.
Qed.

Lemma ceil_nonpositive (q : Q) : (q <= 0)%Q -> Py.ceil q <= 0.
Proof.
  intro H. unfold Py.ceil. pose proof (Qceiling_lt q) as Hc.
  assert (Hq : (inject_Z (Qceiling q - 1) < inject_Z 0)%Q)
    by (change (inject_Z 0) with 0%Q; lra).
  rewrite <- Zlt_Qlt in Hq. lia.
Qed.

(** After a refresh the time text reads "00:00" exactly when nothing is
    left: because [remaining] is rounded up, a timer with time left, however
    little, never shows zero. *)
Theorem zero_text_iff_nothing_left (t : CountdownTimer) :
  time_text (_sync_ui t) = "00:00"%string <-> (remaining t <= 0)%Q.
Proof.
  cbn [time_text _sync_ui]. split.
  - intro H. apply Qnot_lt_le. intro Hpos.
    apply ceil_positive in Hpos.
    assert (Hz : _format_time (Py.ceil (remaining t)) = _format_time 0)
      by exact H.
    apply format_time_injective in Hz; lia.
  - intro H. apply ceil_nonpositive in H. unfold _format_time.
    destruct (Py.ceil (remaining t) <? 0) eqn:E; [reflexivity|].
    apply Z.ltb_ge in E.
    replace (Py.ceil (remaining t)) with 0 by lia. reflexivity.
Qed.

Lemma zero_text_iff_nothing_left_witness :
  time_text (_sync_ui finished_60) = "00:00"%string /\
  time_text (_sync_ui (set_remaining (1 # 1000) finished_60))
  <> "00:00"%string.
Proof.
  split.
  - apply (zero_text_iff_nothing_left finished_60). vm_compute. discriminate.
  - intro H.
    apply (zero_text_iff_nothing_left (set_remaining (1 # 1000) finished_60))
      in H.
    vm_compute in H. apply H. reflexivity.
Defined.

(** ** A fresh timer *)

Lemma start_parse_keeps (t : CountdownTimer) :
  reconfigures t = false ->
  (forall v, Py.int (input_value t) = Some v -> 0 < v) ->
  start_parse t = Next t.
Proof.
  unfold reconfigures, start_parse. intros Hr Hp.
  destruct (Py.int (input_value t)) as [v|]; [|reflexivity].
  specialize (Hp v eq_refl).
  assert (E : (v <=? 0) = false) by (apply Z.leb_gt; lia). rewrite E.
  assert (E' : (0 <? v) = true) by (apply Z.ltb_lt; lia).
  rewrite E' in Hr. cbn [andb] in Hr. now rewrite Hr.
Qed.

(** The duration field of a new timer holds the text of its default
    duration, which [start] reads back.  With a positive default the first
    [start] keeps the duration, sets the timer running and spawns its one
    task; with a default of 0 or less it returns at once, so such a timer
    does not start until a positive number is typed. *)
Theorem start_fresh_timer (n : string) (d : Z) :
  (0 < d ->
     total_seconds (start (__init__ n d)) = d /\
     remaining (start (__init__ n d)) = inject_Z d /\
     running (start (__init__ n d)) = true /\
     _task (start (__init__ n d)) = Some (mkTask false None) /\
     tasks_spawned (start (__init__ n d)) = 1%nat /\
     displayed (start (__init__ n d))) /\
  (d <= 0 -> start (__init__ n d) = __init__ n d).
Proof.
  split; intro Hd.
  - assert (Hp : start_parse (__init__ n d) = Next (__init__ n d)).
    { apply start_parse_keeps.
      - unfold reconfigures. cbn [input_value __init__].
        rewrite int_str_round_trip. cbn [remaining total_seconds __init__].
        rewrite Z.eqb_refl, (le_inject_pos d Hd). cbn. apply andb_false_r.
      - cbn [input_value __init__]. rewrite int_str_round_trip.
        intros v Hv. injection Hv as <-. exact Hd. }
    unfold start. rewrite Hp. unfold start_activate. cbn [running __init__ negb].
    cbn [no_live_task _task set_running __init__].
    repeat (split; [reflexivity|]). apply sync_ui_displayed.
  - unfold start, start_parse. cbn [input_value __init__].
    rewrite int_str_round_trip.
    assert (E : (d <=? 0) = true) by (apply Z.leb_le; lia). now rewrite E.
Qed.

Lemma start_fresh_timer_witness :
  running (start (__init__ "Timer 2" 120)) = true /\
  start (__init__ "Timer 0" 0) = __init__ "Timer 0" 0.
Proof.
  split.
  - apply (start_fresh_timer "Timer 2" 120). lia.
  - apply (start_fresh_timer "Timer 0" 0). lia.
Defined.

(** ** Pause and resume *)

Lemma start_activate_paused (t : CountdownTimer) :
  running t = false -> no_live_task t = false ->
  start_activate t = _sync_ui (set_running true t).
Proof.
  intros Hr Hl. unfold start_activate. rewrite Hr. cbn [negb].
  change (no_live_task (set_running true t)) with (no_live_task t).
  now rewrite Hl.
Qed.

(** Start after Pause, on a running timer whose task is alive, never
    spawns a second task and keeps the task handle, whatever the duration
    field holds.  If the field holds a whole number of 0 or less, [start]
    returns at once and the timer stays paused; with any other text the
    timer is running again.  Unless [start] rewrites the duration,
    [remaining] and [total_seconds] are those from before the pause. *)
Theorem pause_then_start_resumes (t : CountdownTimer) :
  running t = true ->
  no_live_task t = false ->
  running (pause t) = false /\
  remaining (pause t) = remaining t /\
  _task (start (pause t)) = _task t /\
  tasks_spawned (start (pause t)) = tasks_spawned t /\
  ((forall v, Py.int (input_value t) = Some v -> 0 < v) ->
     running (start (pause t)) = true /\ displayed (start (pause t))) /\
  (reconfigures t = false ->
     remaining (start (pause t)) = remaining t /\
     total_seconds (start (pause t)) = total_seconds t) /\
  ((exists v, Py.int (input_value t) = Some v /\ v <= 0) ->
     start (pause t) = pause t).
Proof.
  intros Hrun Hlive.
  assert (Hp : pause t = _sync_ui (set_running false t))
    by (unfold pause; now rewrite Hrun).
  rewrite Hp. set (p := _sync_ui (set_running false t)).
  assert (Hact : forall x,
             running x = false -> _task x = _task t ->
             start_activate x = _sync_ui (set_running true x)).
  { intros x Hx Hk. apply start_activate_paused; [exact Hx|].
    unfold no_live_task in *. now rewrite Hk. }
  split; [reflexivity|]. split; [reflexivity|].
  unfold start, start_parse, reconfigures.
  change (input_value p) with (input_value t).
  change (remaining p) with (remaining t).
  change (total_seconds p) with (total_seconds t).
  destruct (Py.int (input_value t)) as [v|].
  - destruct (v <=? 0) eqn:E0.
    + apply Z.leb_le in E0.
      split; [reflexivity|]. split; [reflexivity|].
      split; [intro H; specialize (H v eq_refl); lia|].
      split; [intros _; split; reflexivity | intros _; reflexivity].
    + apply Z.leb_gt in E0.
      assert (E1 : (0 <? v) = true) by (apply Z.ltb_lt; lia). rewrite E1.
      cbn [andb].
      destruct (Py.le (remaining t) 0 || negb (v =? total_seconds t)).
      * rewrite Hact by reflexivity.
        split; [reflexivity|]. split; [reflexivity|].
        split; [intros _; split; [reflexivity | apply sync_ui_displayed]|].
        split; [discriminate|].
        intros [v' [Hv' Hle]]. injection Hv' as <-. lia.
      * rewrite Hact by reflexivity.
        split; [reflexivity|]. split; [reflexivity|].
        split; [intros _; split; [reflexivity | apply sync_ui_displayed]|].
        split; [intros _; split; reflexivity|].
        intros [v' [Hv' Hle]]. injection Hv' as <-. lia.
  - rewrite Hact by reflexivity.
    split; [reflexivity|]. split; [reflexivity|].
    split; [intros _; split; [reflexivity | apply sync_ui_displayed]|].
    split; [intros _; split; reflexivity|].
    intros [v' [Hv' _]]. discriminate Hv'.
Qed.

Lemma pause_then_start_resumes_witness :
  remaining (start (pause running_60_40)) = remaining running_60_40 /\
  tasks_spawned (start (pause running_60_40)) = 1%nat /\
  running (start (pause running_60_40)) = true /\
  start (pause (set_input_value "0" running_60_40))
  = pause (set_input_value "0" running_60_40).
Proof.
  destruct (pause_then_start_resumes running_60_40)
    as [_ [_ [_ [Hs [Hr [Hk _]]]]]]; [reflexivity | reflexivity |].
  destruct (pause_then_start_resumes (set_input_value "0" running_60_40))
    as [_ [_ [_ [_ [_ [_ Hz]]]]]]; [reflexivity | reflexivity |].
  split; [apply Hk; reflexivity|]. split; [rewrite Hs; reflexivity|].
  split.
  - apply Hr. intros v Hv. vm_compute in Hv. injection Hv as <-. lia.
  - apply Hz. exists 0. split; [reflexivity | lia].
Defined.

(** ** Invariants of the histories of a timer *)

Lemma replay_invariant (P : CountdownTimer -> Prop) :
  (forall t a, P t -> P (step t a)) ->
  forall l t, P t -> P (replay t l).
Proof.
  intros Hs l. induction l as [|a l IH]; intros t Ht; [exact Ht|].
  change (replay t (a :: l)) with (replay (step t a) l). apply IH, Hs, Ht.
Qed.

Lemma start_activate_live (t : CountdownTimer) :
  (running t = true -> no_live_task t = false) ->
  no_live_task (start_activate t) = false.
Proof.
  intro H. unfold start_activate.
  destruct (running t) eqn:Hr; cbn [negb]; [now apply H|].
  change (no_live_task (set_running true t)) with (no_live_task t).
  destruct (no_live_task t) eqn:Hl; [reflexivity | exact Hl].
Qed.

Lemma step_keeps_live (t : CountdownTimer) (a : action) :
  (running t = true -> no_live_task t = false) ->
  running (step t a) = true -> no_live_task (step t a) = false.
Proof.
  intro H. destruct a as [s| | | |now]; cbn [step].
  - exact H.
  - unfold start, start_parse.
    destruct (Py.int (input_value t)) as [v|];
      [|intros _; now apply start_activate_live].
    destruct (v <=? 0); [exact H|].
    destruct (Py.le (remaining t) 0 || negb (v =? total_seconds t));
      intros _; apply start_activate_live; exact H.
  - unfold pause.
    destruct (running t) eqn:Hr; [cbn; discriminate | intro X; congruence].
  - cbn. discriminate.
  - unfold wake. destruct (_task t) as [k|] eqn:Ek; [|exact H].
    destruct (done k) eqn:Ed; [exact H|].
    unfold run_body. change (running (count_loop_step t)) with (running t).
    destruct (running t); cbn [negb].
    + match goal with |- context [Py.le ?a ?b] => destruct (Py.le a b) end;
        cbn; [discriminate | reflexivity].
    + cbn. intros _. reflexivity.
Qed.

(** A running timer always has a live task: whatever the history since its
    creation, [running] is never true while the task is missing or done,
    so a timer never shows as running without a loop that counts it down. *)
Theorem running_has_live_task (n : string) (d : Z) (l : list action) :
  running (replay (__init__ n d) l) = true ->
  exists k, _task (replay (__init__ n d) l) = Some k /\ done k = false.
Proof.
  intro Hrun.
  assert (H : running (replay (__init__ n d) l) = true ->
              no_live_task (replay (__init__ n d) l) = false).
  { apply (replay_invariant
             (fun t => running t = true -> no_live_task t = false)).
    - exact step_keeps_live.
    - cbn. discriminate. }
  specialize (H Hrun). unfold no_live_task in H.
  destruct (_task (replay (__init__ n d) l)) as [k|]; [|discriminate].
  exists k. split; [reflexivity | exact H].
Qed.

Lemma running_has_live_task_witness :
  exists k,
    _task (replay timer1 [Start; Wake 0; Wake 100; Type_input "abc"; Start])
    = Some k /\ done k = false.
Proof.
  apply (running_has_live_task "Timer 1" 60
           [Start; Wake 0; Wake 100; Type_input "abc"; Start]).
  reflexivity.
Defined.

Lemma step_frame (t : CountdownTimer) (a : action) :
  name (step t a) = name t /\ default_seconds (step t a) = default_seconds t.
Proof.
  destruct a as [s| | | |now]; cbn [step].
  - split; reflexivity.
  - unfold start, start_parse, start_activate.
    destruct (Py.int (input_value t)) as [v|].
    + destruct (v <=? 0); [split; reflexivity|].
      destruct (Py.le (remaining t) 0 || negb (v =? total_seconds t));
        cbn [running _sync_ui set_remaining set_total_seconds];
        destruct (negb (running t)); try (split; reflexivity);
        match goal with
        | |- context [no_live_task ?x] => destruct (no_live_task x)
        end; split; reflexivity.
    + destruct (negb (running t)); [|split; reflexivity].
      destruct (no_live_task _); split; reflexivity.
  - unfold pause. destruct (running t); split; reflexivity.
  - split; reflexivity.
  - unfold wake. destruct (_task t) as [k|]; [|split; reflexivity].
    destruct (done k); [split; reflexivity|].
    unfold run_body. change (running (count_loop_step t)) with (running t).
    destruct (running t); cbn [negb]; [|split; reflexivity].
    match goal with |- context [Py.le ?a ?b] => destruct (Py.le a b) end;
      split; reflexivity.
Qed.

(** The name and the default duration given at creation are never
    changed, whatever the user and the loop do afterwards. *)
Theorem name_and_default_immutable (t : CountdownTimer) (l : list action) :
  name (replay t l) = name t /\
  default_seconds (replay t l) = default_seconds t.
Proof.
  apply (replay_invariant
           (fun t' => name t' = name t /\
                      default_seconds t' = default_seconds t));
    [|split; reflexivity].
  intros t' a [Hn Hd]. destruct (step_frame t' a) as [Hn' Hd'].
  split; congruence.
Qed.

Lemma step_total_positive (t : CountdownTimer) (a : action) :
  0 < total_seconds t -> 0 < total_seconds (step t a).
Proof.
  intro H. destruct a as [s| | | |now]; cbn [step].
  - exact H.
  - unfold start, start_parse.
    destruct (Py.int (input_value t)) as [v|].
    + destruct (v <=? 0) eqn:E; [exact H|]. apply Z.leb_gt in E.
      destruct (Py.le (remaining t) 0 || negb (v =? total_seconds t));
        match goal with
        | |- 0 < total_seconds (start_activate ?x) =>
            destruct (start_activate_frame x) as [-> _]
        end; [exact E | exact H].
    + destruct (start_activate_frame t) as [-> _]. exact H.
  - unfold pause. destruct (running t); exact H.
  - exact H.
  - unfold wake. destruct (_task t) as [k|]; [|exact H].
    destruct (done k); [exact H|].
    unfold run_body. change (running (count_loop_step t)) with (running t).
    destruct (running t); cbn [negb]; [|exact H].
    match goal with |- context [Py.le ?a ?b] => destruct (Py.le a b) end;
      exact H.
Qed.

(** A positive [total_seconds] stays positive for ever: [start] only ever
    stores a positive number, so the division in [_progress_fraction] is
    never by zero and the guard for a duration of 0 or less is passed. *)
Theorem total_seconds_stays_positive (t : CountdownTimer) (l : list action) :
  0 < total_seconds t ->
  0 < total_seconds (replay t l) /\
  _progress_fraction (replay t l) =
    Py.Ok (Py.max 0 (Py.min 1
      ((inject_Z (total_seconds (replay t l)) - remaining (replay t l))
       / inject_Z (total_seconds (replay t l)))%Q)).
Proof.
  intro H.
  assert (Hp : 0 < total_seconds (replay t l)).
  { apply (replay_invariant (fun t' => 0 < total_seconds t'));
      [exact step_total_positive | exact H]. }
  split; [exact Hp|]. unfold _progress_fraction.
  assert (E : (total_seconds (replay t l) <=? 0) = false)
    by (apply Z.leb_gt; exact Hp).
  rewrite E. unfold Py.truediv.
  destruct (Qeq_bool (inject_Z (total_seconds (replay t l))) 0) eqn:E0;
    [exfalso; apply (inject_nonzero _ Hp E0) | reflexivity].
Qed.

Lemma total_seconds_stays_positive_witness :
  0 < total_seconds
        (replay timer1 [Type_input "0"; Start; Type_input "-3"; Start;
                        Type_input "7"; Start; Wake 1; Wake 9; Reset]).
Proof.
  apply (total_seconds_stays_positive timer1). reflexivity.
Defined.

(** ** The display follows the fields *)

Lemma same_face_refl (t : CountdownTimer) : same_face t t.
Proof. unfold same_face. auto 10. Qed.

Lemma start_activate_display (t : CountdownTimer) :
  displayed (start_activate t) \/ start_activate t = t.
Proof.
  unfold start_activate. destruct (running t); cbn [negb]; [now right|].
  left. apply sync_ui_displayed.
Qed.

(** Every action either leaves the fields and the display elements as they
    were, or ends with a refresh. *)
Lemma step_display (t : CountdownTimer) (a : action) :
  displayed (step t a) \/ same_face t (step t a).
Proof.
  destruct a as [s| | | |now]; cbn [step].
  - right. unfold same_face. cbn. auto 10.
  - unfold start, start_parse.
    destruct (Py.int (input_value t)) as [v|].
    + destruct (v <=? 0); [right; apply same_face_refl|].
      destruct (Py.le (remaining t) 0 || negb (v =? total_seconds t)).
      * left.
        match goal with
        | |- displayed (start_activate ?x) =>
            destruct (start_activate_display x) as [H | ->];
            [exact H | apply sync_ui_displayed]
        end.
      * destruct (start_activate_display t) as [H | ->];
          [now left | right; apply same_face_refl].
    + destruct (start_activate_display t) as [H | ->];
        [now left | right; apply same_face_refl].
  - unfold pause. destruct (running t);
      [left; apply sync_ui_displayed | right; apply same_face_refl].
  - left. apply sync_ui_displayed.
  - unfold wake. destruct (_task t) as [k|]; [|right; apply same_face_refl].
    destruct (done k); [right; apply same_face_refl|].
    unfold run_body. change (running (count_loop_step t)) with (running t).
    destruct (running t); cbn [negb].
    + left.
      match goal with |- context [Py.le ?a ?b] => destruct (Py.le a b) end;
        unfold displayed; cbn; auto 10.
    + right. unfold same_face. cbn. auto 10.
Qed.

Lemma same_face_displayed (t t' : CountdownTimer) :
  same_face t t' -> displayed t -> displayed t'.
Proof.
  unfold same_face, displayed, _progress_fraction.
  intros [-> [-> [-> [-> [-> [-> [-> [-> ->]]]]]]]] H. exact H.
Qed.

Lemma same_face_readout (t t' : CountdownTimer) :
  same_face t t' -> readout_current t -> readout_current t'.
Proof.
  unfold same_face, readout_current, _progress_fraction.
  intros [-> [-> [_ [-> [-> [-> _]]]]]] H. exact H.
Qed.

Lemma displayed_readout (t : CountdownTimer) :
  displayed t -> readout_current t.
Proof. intros [H1 [H2 [H3 _]]]. repeat split; assumption. Qed.

(** Once the display agrees with the fields it agrees for ever: no button,
    edit of the field or turn of the loop changes [remaining],
    [total_seconds] or [running] without refreshing the time text, the two
    indicators and the three buttons. *)
Theorem display_stays_current (t : CountdownTimer) (l : list action) :
  displayed t -> displayed (replay t l).
Proof.
  apply (replay_invariant displayed).
  intros t' a H. destruct (step_display t' a) as [Hd | Hs];
    [exact Hd | exact (same_face_displayed t' _ Hs H)].
Qed.

Lemma display_stays_current_witness :
  displayed (replay (start timer1)
               [Wake 0; Wake 3; Pause; Type_input "5"; Wake 8; Start;
                Wake 9; Wake 20; Reset]).
Proof.
  apply (display_stays_current (start timer1)).
  unfold displayed. vm_compute. repeat split; reflexivity.
Defined.

(** From its creation on, a timer's time text and its two indicators show
    the present [remaining] and progress, after every history.  (The
    buttons are all enabled at creation and agree from the first refresh.) *)
Theorem readout_always_current (n : string) (d : Z) (l : list action) :
  readout_current (replay (__init__ n d) l) /\
  progress_ring (replay (__init__ n d) l) =
  progress_bar (replay (__init__ n d) l).
Proof.
  assert (H : readout_current (replay (__init__ n d) l)).
  { apply (replay_invariant readout_current).
    - intros t' a H. destruct (step_display t' a) as [Hd | Hs];
        [now apply displayed_readout | exact (same_face_readout t' _ Hs H)].
    - unfold readout_current. cbn [time_text remaining __init__].
      rewrite ceil_inject. repeat split; reflexivity. }
  split; [exact H|]. destruct H as [_ [H1 H2]]. congruence.
Qed.

(** ** Time spent paused *)

(** What a turn of a live task does to a running timer. *)
Lemma wake_running (now : Q) (t : CountdownTimer) (k : Task) :
  running t = true -> _task t = Some k -> done k = false ->
  remaining (wake now t) =
    (if Py.le (remaining t - (now - baseline (last_tick k) now)) 0
     then 0 else remaining t - (now - baseline (last_tick k) now))%Q /\
  running (wake now t) =
    negb (Py.le (remaining t - (now - baseline (last_tick k) now)) 0).
Proof.
  intros Hr Hk Hd. unfold wake, run_body. rewrite Hk, Hd.
  change (running (count_loop_step t)) with (running t). rewrite Hr.
  cbn [negb remaining set_remaining count_loop_step].
  fold (baseline (last_tick k) now).
  destruct (Py.le (remaining t - (now - baseline (last_tick k) now)) 0);
    cbn; rewrite ?Hr; split; reflexivity.
Qed.

(** The turns taken while the timer is paused change nothing but the
    count of turns. *)
Lemma idle_turns (cs : list Q) :
  forall (t : CountdownTimer) (k : Task),
    running t = false -> _task t = Some k -> done k = false ->
    running (replay t (map Wake cs)) = false /\
    remaining (replay t (map Wake cs)) = remaining t /\
    total_seconds (replay t (map Wake cs)) = total_seconds t /\
    input_value (replay t (map Wake cs)) = input_value t /\
    _task (replay t (map Wake cs)) = Some k /\
    tasks_spawned (replay t (map Wake cs)) = tasks_spawned t.
Proof.
  induction cs as [|c cs IH]; intros t k Hr Hk Hd; [cbn; auto 10|].
  change (replay t (map Wake (c :: cs)))
    with (replay (wake c t) (map Wake cs)).
  assert (Hw : wake c t = set_task (Some k) (count_loop_step t)).
  { unfold wake, run_body. rewrite Hk, Hd.
    change (running (count_loop_step t)) with (running t). rewrite Hr.
    cbn [negb]. destruct k as [dk lk]. cbn in Hd. subst dk. reflexivity. }
  rewrite Hw.
  destruct (IH (set_task (Some k) (count_loop_step t)) k) as
      [H1 [H2 [H3 [H4 [H5 H6]]]]]; try assumption; try reflexivity.
  auto 10.
Qed.

(** The loop does not restart its clock when a paused timer is resumed.
    Take a running timer whose task has already taken a turn, pause it,
    let the loop idle for any number of turns and press Start with a field
    that neither rewrites the duration nor holds a whole number of 0 or
    less.  The task is then the one from before the pause, with the
    [last_tick] it had, and its next turn leaves [remaining] and [running]
    exactly as the same turn would have left them had the timer never been
    paused: the elapsed time is measured from the last turn before the
    pause. *)
Theorem paused_time_is_counted
  (t : CountdownTimer) (k : Task) (b : Q) (cs : list Q) :
  running t = true ->
  _task t = Some k ->
  done k = false ->
  reconfigures t = false ->
  (forall v, Py.int (input_value t) = Some v -> 0 < v) ->
  _task (start (replay (pause t) (map Wake cs))) = Some k /\
  remaining (wake b (start (replay (pause t) (map Wake cs)))) =
    remaining (wake b t) /\
  running (wake b (start (replay (pause t) (map Wake cs)))) =
    running (wake b t).
Proof.
  intros Hr Hk Hd Hrec Hpos.
  assert (Hp : pause t = _sync_ui (set_running false t))
    by (unfold pause; now rewrite Hr).
  assert (P1 : running (pause t) = false) by (rewrite Hp; reflexivity).
  assert (P2 : remaining (pause t) = remaining t) by (rewrite Hp; reflexivity).
  assert (P3 : total_seconds (pause t) = total_seconds t)
    by (rewrite Hp; reflexivity).
  assert (P4 : input_value (pause t) = input_value t)
    by (rewrite Hp; reflexivity).
  assert (P5 : _task (pause t) = Some k) by (rewrite Hp; exact Hk).
  destruct (idle_turns cs (pause t) k P1 P5 Hd) as [I1 [I2 [I3 [I4 [I5 _]]]]].
  rewrite P2 in I2. rewrite P3 in I3. rewrite P4 in I4.
  set (p := replay (pause t) (map Wake cs)) in *.
  assert (Hs : start_parse p = Next p).
  { apply start_parse_keeps.
    - unfold reconfigures in *. now rewrite I2, I3, I4.
    - now rewrite I4. }
  assert (Hlive : no_live_task p = false)
    by (unfold no_live_task; now rewrite I5).
  assert (Hst : start p = _sync_ui (set_running true p)).
  { unfold start. rewrite Hs. unfold start_activate. rewrite I1. cbn [negb].
    change (no_live_task (set_running true p)) with (no_live_task p).
    now rewrite Hlive. }
  destruct (wake_running b (start p) k) as [W1 W2];
    [rewrite Hst; reflexivity | rewrite Hst; exact I5 | exact Hd |].
  destruct (wake_running b t k Hr Hk Hd) as [V1 V2].
  assert (Hrem : remaining (start p) = remaining t)
    by (rewrite Hst; exact I2).
  rewrite Hrem in W1, W2.
  split; [rewrite Hst; exact I5|]. split; congruence.
Qed.

Lemma paused_time_is_counted_witness :
  (remaining (wake 50 (start (replay (pause running_60_40)
                                     (map Wake [30; 40; 45]%Q)))) == 10)%Q.
Proof.
  destruct (paused_time_is_counted running_60_40 (mkTask false (Some 20%Q))
              50 [30; 40; 45]%Q) as [_ [H _]].
  - reflexivity.
  - reflexivity.
  - reflexivity.
  - reflexivity.
  - intros v Hv. vm_compute in Hv. injection Hv as <-. lia.
  - rewrite H. vm_compute. reflexivity.
Defined.

(** ** More on the progress fraction *)

Lemma progress_value (t : CountdownTimer) :
  0 < total_seconds t ->
  (Py.value (_progress_fraction t) ==
   clamp01 ((inject_Z (total_seconds t) - remaining t)
            / inject_Z (total_seconds t)))%Q.
Proof.
  intro H. unfold _progress_fraction.
  assert (E : (total_seconds t <=? 0) = false) by (apply Z.leb_gt; exact H).
  rewrite E. unfold Py.truediv.
  destruct (Qeq_bool (inject_Z (total_seconds t)) 0) eqn:E0;
    [exfalso; apply (inject_nonzero _ H E0)|].
  cbn [Py.bind Py.value]. apply clamp_agrees.
Qed.

Lemma clamp_monotone (x y : Q) : (x <= y)%Q -> (clamp01 x <= clamp01 y)%Q.
Proof.
  intro H. unfold clamp01.
  destruct (Py.lt x 0) eqn:E1; [apply lt_true in E1 | apply lt_false in E1];
    destruct (Py.lt y 0) eqn:E2; [apply lt_true in E2 | apply lt_false in E2
                                 | apply lt_true in E2 | apply lt_false in E2];
    split_lt; lra.
Qed.

Lemma inject_pos (z : Z) : 0 < z -> (0 < inject_Z z)%Q.
Proof.
  intro H. change 0%Q with (inject_Z 0). now rewrite <- Zlt_Qlt.
Qed.

(** With the duration fixed, the progress shown never goes down while
    [remaining] goes down: less time left means at least as much progress. *)
Theorem progress_monotone (t1 t2 : CountdownTimer) :
  total_seconds t1 = total_seconds t2 ->
  (remaining t2 <= remaining t1)%Q ->
  (Py.value (_progress_fraction t1) <= Py.value (_progress_fraction t2))%Q.
Proof.
  intros Ht Hr.
  destruct (Z.le_gt_cases (total_seconds t1) 0) as [Hz | Hp].
  - unfold _progress_fraction. rewrite <- Ht.
    assert (E : (total_seconds t1 <=? 0) = true) by (apply Z.leb_le; exact Hz).
    rewrite E. cbn. lra.
  - rewrite (progress_value t1 Hp).
    rewrite (progress_value t2) by (rewrite <- Ht; exact Hp).
    rewrite <- Ht. apply clamp_monotone. unfold Qdiv.
    apply Qmult_le_compat_r; [lra|].
    apply Qinv_le_0_compat. pose proof (inject_pos _ Hp). lra.
Qed.

Lemma progress_monotone_witness :
  (Py.value (_progress_fraction timer1) <=
   Py.value (_progress_fraction running_60_40))%Q.
Proof.
  apply (progress_monotone timer1 running_60_40).
  - reflexivity.
  - vm_compute. discriminate.
Defined.

(** ** The application shell *)

Lemma update_nth_length {A : Type} (f : A -> A) (l : list A) :
  forall i, List.length (update_nth i f l) = List.length l.
Proof.
  induction l as [|x r IH]; intros [|i]; cbn; auto.
Qed.

Lemma nth_error_update_nth {A : Type} (f : A -> A) (l : list A) :
  forall i j,
    nth_error (update_nth i f l) j =
    if Nat.eqb i j then option_map f (nth_error l j) else nth_error l j.
Proof.
  induction l as [|x r IH]; intros [|i] [|j]; cbn; try reflexivity.
  - now destruct (Nat.eqb i j).
  - apply IH.
Qed.

Lemma shell_replay_invariant (P : Shell -> Prop) :
  (forall a e, P a -> P (shell_step a e)) ->
  forall l a, P a -> P (shell_replay a l).
Proof.
  intros Hs l. induction l as [|e l IH]; intros a Ha; [exact Ha|].
  change (shell_replay a (e :: l)) with (shell_replay (shell_step a e) l).
  apply IH, Hs, Ha.
Qed.

Lemma main_ok : shell_ok main.
Proof.
  unfold shell_ok. cbn [main timers nav_buttons content selected_index].
  split; [reflexivity|]. split; [|split; [cbn; lia | reflexivity]].
  intros j Hj. cbn in Hj.
  destruct j as [|[|[|j]]]; try lia;
    (split; [reflexivity | eexists; split; reflexivity]).
Qed.

Lemma shell_step_ok (a : Shell) (e : shell_action) :
  shell_ok a -> shell_ok (shell_step a e).
Proof.
  intros [Hlen [Hnth [Hc Hsel]]]. destruct e as [j| |i x]; cbn [shell_step].
  - unfold click_nav.
    destruct (nth_error (nav_buttons a) j) as [[lab i]|] eqn:Ej;
      [|exact (conj Hlen (conj Hnth (conj Hc Hsel)))].
    assert (Hj : (j < List.length (timers a))%nat).
    { rewrite <- Hlen. apply nth_error_Some. congruence. }
    destruct (Hnth j Hj) as [Hb [t [Ht _]]].
    rewrite Hb in Ej. injection Ej as _ <-.
    unfold show_timer. rewrite Ht. cbn.
    split; [exact Hlen|]. split; [exact Hnth|]. split; [exact Hj | reflexivity].
  - unfold shell_ok, add_timer.
    cbn [timers nav_buttons content selected_index].
    rewrite !length_app. cbn [List.length].
    split; [lia|]. split; [|split; [lia | exact Hsel]].
    intros j Hj.
    destruct (Nat.eq_dec j (List.length (timers a))) as [-> | Hne].
    + split.
      * rewrite nth_error_app2 by lia. rewrite Hlen, Nat.sub_diag. reflexivity.
      * exists (__init__ (timer_label (List.length (timers a))) 30).
        split; [|reflexivity].
        rewrite nth_error_app2 by lia. rewrite Nat.sub_diag. reflexivity.
    + assert (Hj' : (j < List.length (timers a))%nat) by lia.
      destruct (Hnth j Hj') as [Hb [t [Ht Hn]]]. split.
      * rewrite nth_error_app1 by lia. exact Hb.
      * exists t. split; [|exact Hn]. rewrite nth_error_app1 by lia. exact Ht.
  - unfold shell_ok. cbn [timers nav_buttons content selected_index].
    rewrite update_nth_length.
    split; [exact Hlen|]. split; [|split; assumption].
    intros j Hj. destruct (Hnth j Hj) as [Hb [t [Ht Hn]]].
    split; [exact Hb|]. rewrite nth_error_update_nth, Ht.
    destruct (Nat.eqb i j).
    + exists (step t x). split; [reflexivity|].
      destruct (step_frame t x) as [-> _]. exact Hn.
    + exists t. split; [reflexivity | exact Hn].
Qed.

Lemma shell_replay_ok (l : list shell_action) :
  shell_ok (shell_replay main l).
Proof.
  apply shell_replay_invariant; [exact shell_step_ok | exact main_ok].
Qed.

(** Whatever is clicked, added or run since [main], the drawer matches the
    timers: it has one button per timer, the [j]-th button bears the name
    "Timer j+1" of the [j]-th timer and is bound to its index, the view
    shown belongs to an existing timer and [selected_index] names it. *)
Theorem shell_invariant (l : list shell_action) :
  shell_ok (shell_replay main l).
Proof.
  apply (shell_replay_invariant shell_ok).
  - intros a e Ha. now apply shell_step_ok.
  - exact main_ok.
Qed.

(** At any time, a click on a button of the drawer raises no
    [IndexError]: it shows the view of the timer whose name the button
    bears, requests one page update and leaves every timer untouched. *)
Theorem nav_click_shows_its_timer (l : list shell_action) (j : nat) :
  (j < List.length (nav_buttons (shell_replay main l)))%nat ->
  exists t,
    nth_error (nav_buttons (shell_replay main l)) j = Some (name t, j) /\
    nth_error (timers (shell_replay main l)) j = Some t /\
    snd (click_nav j (shell_replay main l)) = Done /\
    content (fst (click_nav j (shell_replay main l))) = j /\
    selected_index (fst (click_nav j (shell_replay main l))) = j /\
    timers (fst (click_nav j (shell_replay main l))) =
      timers (shell_replay main l) /\
    shell_updates (fst (click_nav j (shell_replay main l))) =
      S (shell_updates (shell_replay main l)).
Proof.
  intro Hj. destruct (shell_replay_ok l) as [Hlen [Hnth _]].
  rewrite Hlen in Hj. destruct (Hnth j Hj) as [Hb [t [Ht Hn]]].
  exists t. rewrite Hn. split; [exact Hb|]. split; [exact Ht|].
  unfold click_nav. rewrite Hb. unfold show_timer. rewrite Ht. cbn.
  repeat split; reflexivity.
Qed.

Lemma nav_click_shows_its_timer_witness :
  exists t,
    nth_error (timers (shell_replay main [Click_add; Click_nav 1])) 3 = Some t
    /\ snd (click_nav 3 (shell_replay main [Click_add; Click_nav 1])) = Done.
Proof.
  destruct (nav_click_shows_its_timer [Click_add; Click_nav 1] 3)
    as [t [_ [Ht [Hd _]]]].
  - cbn. lia.
  - exists t. split; [exact Ht | exact Hd].
Defined.

Lemma shell_step_timer (a : Shell) (e : shell_action) (j : nat)
      (t : CountdownTimer) :
  nth_error (timers a) j = Some t ->
  nth_error (timers (shell_step a e)) j =
  Some (replay t (own_actions j [e])).
Proof.
  intro Ht. destruct e as [k| |i x]; cbn [shell_step own_actions].
  - unfold click_nav. destruct (nth_error (nav_buttons a) k) as [[lab i]|];
      [|exact Ht].
    unfold show_timer. destruct (nth_error (timers a) i); exact Ht.
  - cbn [add_timer timers]. rewrite nth_error_app1; [exact Ht|].
    apply nth_error_Some. congruence.
  - cbn [timers]. rewrite nth_error_update_nth, Ht.
    destruct (Nat.eqb i j); reflexivity.
Qed.

(** Timers do not interfere: after any history of the application, the
    state of a timer is what its own buttons, field and task made of it.
    Clicks in the drawer, added timers and whatever happens to the other
    timers leave it as it is, also while its view is not shown. *)
Theorem timers_are_independent (l : list shell_action) :
  forall (a : Shell) (j : nat) (t : CountdownTimer),
    nth_error (timers a) j = Some t ->
    nth_error (timers (shell_replay a l)) j =
    Some (replay t (own_actions j l)).
Proof.
  induction l as [|e l IH]; intros a j t Ht; [exact Ht|].
  change (shell_replay a (e :: l)) with (shell_replay (shell_step a e) l).
  rewrite (IH _ j _ (shell_step_timer a e j t Ht)). f_equal.
  destruct e as [k| |i x]; cbn [own_actions]; try reflexivity.
  destruct (Nat.eqb i j); reflexivity.
Qed.

Lemma timers_are_independent_witness :
  nth_error
    (timers (shell_replay main
       [On_timer 1 Start; Click_nav 2; On_timer 1 (Wake 0); Click_add;
        On_timer 0 Start; On_timer 3 Start; On_timer 1 (Wake 30);
        Click_nav 0; On_timer 2 Reset])) 1
  = Some (replay (__init__ "Timer 2" 120) [Start; Wake 0; Wake 30]).
Proof.
  apply (timers_are_independent
           [On_timer 1 Start; Click_nav 2; On_timer 1 (Wake 0); Click_add;
            On_timer 0 Start; On_timer 3 Start; On_timer 1 (Wake 30);
            Click_nav 0; On_timer 2 Reset] main 1 (__init__ "Timer 2" 120)).
  reflexivity.
Defined.

Lemma shell_step_count (a : Shell) (e : shell_action) :
  List.length (timers (shell_step a e)) =
  (List.length (timers a) + count_adds [e])%nat.
Proof.
  destruct e as [k| |i x]; cbn [shell_step count_adds].
  - unfold click_nav. destruct (nth_error (nav_buttons a) k) as [[lab i]|];
      [|cbn [fst]; lia].
    unfold show_timer. destruct (nth_error (timers a) i); cbn; lia.
  - cbn [add_timer timers]. rewrite length_app. cbn. lia.
  - cbn [timers]. rewrite update_nth_length. lia.
Qed.

(** Timers are only ever added: after any history there are the three
    timers of [main] and one more for each click on the add button, and
    the timer that [add_timer] appends is a fresh "Timer n+1" of 30
    seconds, not running, while the view shown stays the same. *)
Theorem timers_only_grow (l : list shell_action) :
  List.length (timers (shell_replay main l)) = (3 + count_adds l)%nat /\
  timers (add_timer (shell_replay main l)) =
    timers (shell_replay main l) ++
    [__init__ (timer_label (3 + count_adds l)) 30] /\
  content (add_timer (shell_replay main l)) = content (shell_replay main l).
Proof.
  assert (H : forall a,
             List.length (timers (shell_replay a l)) =
             (List.length (timers a) + count_adds l)%nat).
  { induction l as [|e l IH]; intro a; [cbn; lia|].
    change (shell_replay a (e :: l)) with (shell_replay (shell_step a e) l).
    rewrite IH, shell_step_count. destruct e; cbn [count_adds]; lia. }
  specialize (H main). cbn [main timers map seq List.length] in H.
  split; [exact H|]. split; [|reflexivity].
  unfold add_timer. cbn [timers]. now rewrite H.
Qed.

Lemma timer_label_injective (i j : nat) :
  timer_label i = timer_label j -> i = j.
Proof.
  unfold timer_label. cbn [append]. intro H. injection H as H.
  apply (f_equal Py.int) in H. rewrite !int_str_round_trip in H.
  injection H as H. lia.
Qed.

(** No two timers ever bear the same name. *)
Theorem timer_names_distinct (l : list shell_action) :
  NoDup (map name (timers (shell_replay main l))).
Proof.
  destruct (shell_replay_ok l) as [_ [Hnth _]].
  apply NoDup_nth_error. intros i j Hi He.
  rewrite length_map in Hi. rewrite !nth_error_map in He.
  destruct (Hnth i Hi) as [_ [t [Ht Hn]]]. rewrite Ht in He. cbn in He.
  assert (Hj : (j < List.length (timers (shell_replay main l)))%nat).
  { apply nth_error_Some. intro Hnone. rewrite Hnone in He. discriminate. }
  destruct (Hnth j Hj) as [_ [t' [Ht' Hn']]]. rewrite Ht' in He. cbn in He.
  injection He as He. apply timer_label_injective. congruence.
Qed.

(** ** The invariant and the rounding of doubles *)






